(** * R2X Sienna exporter: a shallow embedding of [r2x/exporter/sienna.py]

    The exporter turns the records of an in-memory grid model into the CSV
    tables and the time-series index read by PowerSystems.jl.  This file
    embeds the functions of [sienna.py] in Rocq and proves the properties the
    specification states about them.

    Layout:
    - [Py]: the Python values the exporter handles, the exceptions it
      raises, and a state-and-exception monad over a store of mutable
      dictionaries, a set of written files and a log;
    - [Sienna]: the functions of [sienna.py], in source order of use;
    - the theorems, one section per exported table. *)

From Stdlib Require Import ZArith String Floats Permutation Sorted OrderedTypeEx.
From stdpp Require Import base option list gmap strings pretty.

#[local] Open Scope string_scope.
#[local] Open Scope Z_scope.

(** ** Python values, exceptions and the exporter monad *)

Module Py.

(** The exceptions the exporter can run into.  Messages are not modelled.
    [Unmodelled] marks a Python behaviour this embedding does not describe
    (it is never used to settle a property). *)
Inductive exn :=
| KeyError (key : string)
| AttributeError (attr : string)
| TypeError
| ValueError
| AssertionError
| NotImplementedError
| Unmodelled.

(** Values found in component records.  Dictionaries nested in a record are
    read only, so they are plain finite maps; a pydantic object is its class
    name, its [model_fields_set] and its attributes. *)
#[warnings="-register-all"]
Inductive value :=
| VNone
| VBool (b : bool)
| VInt (z : Z)
| VFloat (f : float)
| VStr (s : string)
| VList (l : list value)
| VTuple (l : list value)
| VDict (d : gmap string value)
| VObj (cls : string) (fields_set : gset string) (attrs : gmap string value).

(** A record is a top-level Python [dict] with string keys. *)
Abbreviation record := (gmap string value).

(** [bool(v)]: Python truthiness. *)
Definition truthy (v : value) : bool :=
  match v with
  | VNone => false
  | VBool b => b
  | VInt z => negb (z =? 0)
  | VFloat f => negb (PrimFloat.eqb f 0%float)
  | VStr s => negb (String.eqb s "")
  | VList l | VTuple l => match l with [] => false | _ => true end
  | VDict d => negb (Nat.eqb (size d) 0)
  | VObj _ _ _ => true
  end.

(** [v == s] for a string literal [s]. *)
Definition py_eq_str (v : value) (s : string) : bool :=
  match v with
  | VStr s' => String.eqb s' s
  | _ => false
  end.

(** [v is None]. *)
Definition is_none (v : value) : bool :=
  match v with VNone => true | _ => false end.

(** Results of pure partial operations. *)
Inductive result (A : Type) :=
| Ok (a : A)
| Raise (e : exn).
Arguments Ok {A} a.
Arguments Raise {A} e.

#[global] Instance result_ret : MRet result := @Ok.
#[global] Instance result_bind : MBind result := λ A B f r,
  match r with
  | Ok a => f a
  | Raise e => Raise e
  end.

(** [v[k]] on a nested dictionary. *)
Definition py_getitem (v : value) (k : string) : result value :=
  match v with
  | VDict d => match d !! k with
               | Some x => Ok x
               | None => Raise (KeyError k)
               end
  | _ => Raise TypeError
  end.

(** [v.get(k)] on a nested dictionary ([None] when the key is absent). *)
Definition py_dict_get (v : value) (k : string) : result value :=
  match v with
  | VDict d => Ok (default VNone (d !! k))
  | _ => Raise (AttributeError "get")
  end.

(** [k in v.keys()]. *)
Definition py_in_keys (k : string) (v : value) : result bool :=
  match v with
  | VDict d => Ok (bool_decide (is_Some (d !! k)))
  | _ => Raise (AttributeError "keys")
  end.

(** [v.a] on an object. *)
Definition py_getattr (v : value) (a : string) : result value :=
  match v with
  | VObj _ _ attrs => match attrs !! a with
                      | Some x => Ok x
                      | None => Raise (AttributeError a)
                      end
  | _ => Raise (AttributeError a)
  end.

(** [getattr(v, a, None)]. *)
Definition py_getattr_default (v : value) (a : string) : value :=
  match v with
  | VObj _ _ attrs => default VNone (attrs !! a)
  | _ => VNone
  end.

(** [v.model_fields_set] of a pydantic object. *)
Definition model_fields_set (v : value) : result (gset string) :=
  match v with
  | VObj _ fs _ => Ok fs
  | _ => Raise (AttributeError "model_fields_set")
  end.

(** The characters of a string, each as a one-character string. *)
Fixpoint str_chars (s : string) : list value :=
  match s with
  | EmptyString => []
  | String c s' => VStr (String c EmptyString) :: str_chars s'
  end.

(** [iter(v)] for the sequences that occur in records. *)
Definition py_iter (v : value) : result (list value) :=
  match v with
  | VList l | VTuple l => Ok l
  | VStr s => Ok (str_chars s)
  | VDict _ => Raise Unmodelled
  | _ => Raise TypeError
  end.

(** [(x, y) = v]: unpacking into exactly two targets. *)
Definition unpack2 (v : value) : result (value * value) :=
  l ← py_iter v;
  match l with
  | [x; y] => Ok (x, y)
  | _ => Raise ValueError
  end.

(** [s * 1000] for a string: a thousand copies. *)
Definition str_repeat (s : string) (n : nat) : string :=
  Nat.iter n (String.append s) "".

(** [v * 1000]: the product for numbers, repetition for sequences. *)
Definition py_mul_1000 (v : value) : result value :=
  match v with
  | VInt z => Ok (VInt (z * 1000))
  | VBool b => Ok (VInt (if b then 1000 else 0))
  | VFloat f => Ok (VFloat (f * 1000)%float)
  | VStr s => Ok (VStr (str_repeat s 1000))
  | VList l => Ok (VList (concat (replicate 1000 l)))
  | VTuple l => Ok (VTuple (concat (replicate 1000 l)))
  | VNone | VDict _ | VObj _ _ _ => Raise TypeError
  end.

(** [k in d] for a dictionary [d] with string keys: other hashable keys are
    absent, unhashable ones are refused. *)
Definition py_in_dict (k d : value) : result bool :=
  match d with
  | VDict m =>
      match k with
      | VStr s => Ok (bool_decide (is_Some (m !! s)))
      | VList _ | VDict _ => Raise TypeError
      | _ => Ok false
      end
  | VList _ | VTuple _ | VStr _ => Raise Unmodelled
  | _ => Raise TypeError
  end.

(** [d.get(k)] with a key that is a value. *)
Definition py_dict_get_value (d k : value) : result value :=
  match d with
  | VDict m =>
      match k with
      | VStr s => Ok (default VNone (m !! s))
      | VList _ | VDict _ => Raise TypeError
      | _ => Ok VNone
      end
  | _ => Raise (AttributeError "get")
  end.

(** [r[k]] on a record. *)
Definition record_getitem (r : gmap string value) (k : string) : result value :=
  match r !! k with
  | Some v => Ok v
  | None => Raise (KeyError k)
  end.

(** The single quote character. *)
Definition apostrophe : Ascii.ascii := Ascii.ascii_of_nat 39.

(** [s.replace(c, e)] for a one-character [c] and the empty string [e]. *)
Fixpoint remove_char (c : Ascii.ascii) (s : string) : string :=
  match s with
  | EmptyString => EmptyString
  | String a s' =>
      if Ascii.eqb a c then remove_char c s' else String a (remove_char c s')
  end.

(** [s + t] where [t] is a string literal. *)
Definition py_add_str (v : value) (t : string) : result value :=
  match v with
  | VStr s => Ok (VStr (s +:+ t))
  | _ => Raise TypeError
  end.

(** *** The store *)

(** Mutable dictionaries live in a store and are named by their index, so
    that two names of one dictionary see each other's writes. *)
Definition loc := nat.

Inductive level := INFO | DEBUG | WARNING.

(** A written file: a table with its header and its rows, each row a list
    of cells in header order, or a JSON array of objects. *)
Inductive file :=
| CsvFile (header : list string) (rows : list (list value))
| JsonFile (items : list (gmap string value)).

Record world := World {
  heap : list (gmap string value);
  files : gmap string file;
  log : list (level * string)
}.

Definition empty_world : world := World [] ∅ [].

Definition M (A : Type) : Type := world → world * result A.

#[global] Instance M_ret : MRet M := λ A a w, (w, Ok a).
#[global] Instance M_bind : MBind M := λ A B f c w,
  match c w with
  | (w', Ok a) => f a w'
  | (w', Raise e) => (w', Raise e)
  end.

Definition raise {A} (e : exn) : M A := λ w, (w, Raise e).

Definition lift {A} (r : result A) : M A := λ w, (w, r).

(** [assert b]. *)
Definition py_assert (b : bool) : M unit :=
  if b then mret () else raise AssertionError.

(** [assert x] or [assert x is not None] for an optional object [x], which
    is then used. *)
Definition assert_some {A} (x : option A) : M A :=
  match x with
  | Some a => mret a
  | None => raise AssertionError
  end.

(** A fresh dictionary holding [r]. *)
Definition alloc (r : gmap string value) : M loc := λ w,
  (World (heap w ++ [r]) (files w) (log w), Ok (length (heap w))).

(** The current contents of a dictionary. *)
Definition deref (l : loc) : M (gmap string value) := λ w,
  match heap w !! l with
  | Some r => (w, Ok r)
  | None => (w, Raise Unmodelled)
  end.

(** [d[k] = v]. *)
Definition setitem (l : loc) (k : string) (v : value) : M unit := λ w,
  match heap w !! l with
  | Some r => (World (<[l := <[k := v]> r]> (heap w)) (files w) (log w), Ok ())
  | None => (w, Raise Unmodelled)
  end.

(** [d[k]]. *)
Definition getitem (l : loc) (k : string) : M value :=
  r ← deref l;
  match r !! k with
  | Some v => mret v
  | None => raise (KeyError k)
  end.

(** [d.get(k, dflt)]. *)
Definition dict_get (l : loc) (k : string) (dflt : value) : M value :=
  r ← deref l;
  mret (default dflt (r !! k)).

(** [d.copy()]: a new dictionary with the same items. *)
Definition dict_copy (l : loc) : M loc :=
  r ← deref l;
  alloc r.

(** [logger.<level>(msg)]. *)
Definition logger (lv : level) (msg : string) : M unit := λ w,
  (World (heap w) (files w) (log w ++ [(lv, msg)]), Ok ()).

(** Creating or replacing a whole file. *)
Definition write_file (name : string) (f : file) : M unit := λ w,
  (World (heap w) (<[name := f]> (files w)) (log w), Ok ()).

(** [for x in l: body(x)]. *)
Fixpoint for_each {A} (l : list A) (body : A → M unit) : M unit :=
  match l with
  | [] => mret ()
  | x :: l' => body x;; for_each l' body
  end.

(** [for i, x in enumerate(l): body(i, x)], counting from [i]. *)
Fixpoint for_enumerate {A} (i : nat) (l : list A) (body : nat → A → M unit)
  : M unit :=
  match l with
  | [] => mret ()
  | x :: l' => body i x;; for_enumerate (S i) l' body
  end.

End Py.

Import Py.

(** ** The exporter *)

Module Sienna.

(** *** Operation cost (lines 580-699) *)

(** Modelled from the spec: [haskey] of [r2x.utils] is not part of the
    exported source.  Rules 2, 4 and 5 of the operation-cost translator
    apply when the variable-cost object holds the named entry and that entry
    holds function data, that is when the path of keys leads through nested
    mappings to a key that is present. *)
Fixpoint haskey (base_dict : value) (path : list string) : bool :=
  match path with
  | [] => false
  | [k] =>
      match base_dict with
      | VDict d => bool_decide (is_Some (d !! k))
      | _ => false
      end
  | k :: rest =>
      match base_dict with
      | VDict d =>
          match d !! k with
          | Some next => if truthy next then haskey next rest else false
          | None => false
          end
      | _ => false
      end
  end.

(** [f"output_point_{i}"] and the other column names of a curve point. *)
Definition output_point_col (i : nat) : string := "output_point_" +:+ pretty i.
Definition cost_point_col (i : nat) : string := "cost_point_" +:+ pretty i.
Definition heat_rate_col (i : nat) : string :=
  match i with
  | O => "heat_rate_avg_0"
  | _ => "heat_rate_incr_" +:+ pretty i
  end.

(** The two loop bodies of [_variable_type_parsing]. *)
Definition cost_curve_point (component : loc) (i : nat) (xy : value) : M unit :=
  '(x_coord, y_coord) ← lift (unpack2 xy);
  setitem component (output_point_col i) x_coord;;
  setitem component (cost_point_col i) y_coord.

Definition fuel_curve_point (component : loc) (i : nat) (xy : value) : M unit :=
  '(x_coord, y_coord) ← lift (unpack2 xy);
  setitem component (output_point_col i) x_coord;;
  setitem component (heat_rate_col i) y_coord.

Definition _variable_type_parsing (component : loc) (cost_dict : value) : M loc :=
  variable_curve ← lift (py_getitem cost_dict "variable");
  value_curve ← lift (py_getitem variable_curve "value_curve");
  function_data ← lift (py_getitem value_curve "function_data");
  points ← lift (py_getattr function_data "points");
  variable_type ← lift (py_getitem cost_dict "variable_type");
  if py_eq_str variable_type "CostCurve" then
    x_y_coords ← lift (py_iter points);
    for_enumerate 0 x_y_coords (cost_curve_point component);;
    mret component
  else if py_eq_str variable_type "FuelCurve" then
    x_y_coords ← lift (py_iter points);
    for_enumerate 0 x_y_coords (fuel_curve_point component);;
    mret component
  else raise NotImplementedError.

(** The blocks of [apply_operation_table_data], one per rule. *)
Definition vom_cost_rule (component : loc) (variable : value) : M unit :=
  if haskey variable ["vom_cost"; "function_data"] then
    vom_cost ← lift (py_getitem variable "vom_cost");
    function_data ← lift (py_getitem vom_cost "function_data");
    proportional_term ← lift (py_getattr function_data "proportional_term");
    setitem component "variable_cost" proportional_term
  else mret ().

Definition fuel_cost_rule (component : loc) (variable : value) : M unit :=
  present ← lift (py_in_keys "fuel_cost" variable);
  if present : bool then
    fuel_cost ← lift (py_getitem variable "fuel_cost");
    py_assert (negb (is_none fuel_cost));;
    fuel_price ← lift (py_mul_1000 fuel_cost);
    setitem component "fuel_price" fuel_price
  else mret ().

Definition heat_rate_term (component : loc) (function_data : value)
    (fields : gset string) (term col : string) : M unit :=
  if bool_decide (term ∈ fields) then
    v ← lift (py_getattr function_data term);
    setitem component col v
  else mret ().

Definition value_curve_rule (component : loc) (operation_cost variable : value)
  : M loc :=
  if haskey variable ["value_curve"; "function_data"] then
    value_curve ← lift (py_getitem variable "value_curve");
    function_data ← lift (py_getitem value_curve "function_data");
    function_data_fields ← lift (model_fields_set function_data);
    heat_rate_term component function_data function_data_fields
      "constant_term" "heat_rate_a0";;
    heat_rate_term component function_data function_data_fields
      "proportional_term" "heat_rate_a1";;
    heat_rate_term component function_data function_data_fields
      "quadratic_term" "heat_rate_a2";;
    if bool_decide ("points" ∈ function_data_fields) then
      _variable_type_parsing component operation_cost
    else mret component
  else mret component.

(** The function mutates the component in place and returns it. *)
Definition apply_operation_table_data (component : loc) : M loc :=
  operation_cost ← dict_get component "operation_cost" (VBool false);
  if negb (truthy operation_cost) then mret component else
  variable ← lift (py_dict_get operation_cost "variable");
  if negb (truthy variable) then mret component else
  vom_cost_rule component variable;;
  fuel_cost_rule component variable;;
  value_curve_rule component operation_cost variable.

(** *** The collaborators of the exporter *)

(** The component classes the exporter asks the system for. *)
Inductive component_class :=
| Bus | PowerLoad | ACBranch | DCBranch | Generator | ReserveMap | Reserve.

(** A [datetime.timedelta]: Python keeps it normalised as days, seconds
    ([0 <= seconds < 86400]) and microseconds; the attribute [seconds] is
    the middle part only. *)
Record timedelta := Timedelta {
  days : Z;
  seconds : Z;
  microseconds : Z
}.

(** The duration in whole seconds ([total_seconds()] when there are no
    microseconds). *)
Definition total_seconds (d : timedelta) : Z := days d * 86400 + seconds d.

(** Time-series metadata; [resolution] is absent for the kinds of metadata
    that have none. *)
Record ts_metadata := TsMetadata {
  variable_name : string;
  resolution : option timedelta
}.

(** A typed component, as far as the pointer builder looks at it. *)
Record component := Component {
  class_name : string;
  component_name : string
}.

(** Modelled from the spec: the component store ([r2x.api.System], not part
    of the exported source) lets the exporter enumerate the components of a
    kind with an optional filter, resolve a component by label, test for
    time series and list the time-series metadata of a component.
    [model_dump] stands for [get_components] followed by
    [model_dump(exclude_none=True, ...)], [to_records_storage] for
    [to_records(Generator, filter_func=...)] with the storage filter. *)
Record System := {
  model_dump : component_class → list (gmap string value);
  to_records : component_class → list (gmap string value);
  to_records_storage : list (gmap string value);
  get_component_by_label : value → result value;
  get_components : list component;
  has_time_series : component → bool;
  list_time_series_metadata : component → list ts_metadata
}.

(** Modelled from the spec: the configuration classes ([r2x.config_models],
    not part of the exported source).  A configuration exposes its class,
    the [solve_year] of a ReEDS configuration, and the defaults with the
    global property map, the global unit map and the table schemas. *)
Inductive config_class := ReEDSConfig | PlexosConfig | SiennaConfig | InfrasysConfig.

Inductive solve_year_value :=
| SolveYearNone
| SolveYearInt (y : Z)
| SolveYearList (ys : list Z).

Record defaults_dict := Defaults {
  sienna_property_map : option (gmap string string);
  sienna_unit_map : option (gmap string string);
  table_data : option (gmap string (list string))
}.

Record config_model := Config {
  config_class_of : config_class;
  solve_year : solve_year_value;
  defaults : defaults_dict
}.

Record Scenario := {
  scenario_name : string;
  scenario_output_folder : option string;
  input_config : option config_model;
  output_config : option config_model
}.

Record SiennaExporter := {
  exporter_config : Scenario;
  exporter_system : System;
  exporter_output_folder : string;
  exporter_output_config : config_model;
  property_map : gmap string string;
  unit_map : gmap string string;
  output_fields : gmap string (list string);
  year : Z
}.

Definition is_sienna_config (c : config_model) : bool :=
  match config_class_of c with SiennaConfig => true | _ => false end.

Definition is_reeds_config (c : config_model) : bool :=
  match config_class_of c with ReEDSConfig => true | _ => false end.

Definition solve_year_is_list (c : config_model) : bool :=
  match solve_year c with SolveYearList _ => true | _ => false end.

(** [folder / name] as a string, for a folder written without a trailing
    separator and a relative single-segment name. *)
Definition path_join (folder name : string) : string :=
  folder +:+ "/" +:+ name.

(** A pipeline stage consumes a record and returns a record, or raises. *)
Definition stage : Type := gmap string value → result (gmap string value).

(** Modelled from the spec: [get_export_records] ([r2x.exporter.handler],
    not part of the exported source) applies an ordered sequence of stage
    functions to every record of a list, each stage on the output of the
    stage before it. *)
Definition get_export_properties (update_funcs : list stage)
    (component : gmap string value) : result (gmap string value) :=
  foldl (λ acc func, acc ≫= func) (Ok component) update_funcs.

Definition get_export_records (component_list : list (gmap string value))
    (update_funcs : list stage) : result (list (gmap string value)) :=
  mapM (get_export_properties update_funcs) component_list.

(** Modelled from the spec: [apply_default_value] ([r2x.exporter.utils], not
    part of the exported source) fills a field only when it is absent or
    null and never overwrites a present value. *)
Definition fill_default (component : gmap string value) (kv : string * value)
  : gmap string value :=
  match component !! kv.1 with
  | Some v => if is_none v then <[kv.1 := kv.2]> component else component
  | None => <[kv.1 := kv.2]> component
  end.

Definition apply_default_value (default_value_map : list (string * value))
  : stage :=
  λ component, Ok (foldl fill_default component default_value_map).

(** A function that mutates a dictionary in place and returns it, used as a
    stage on a record that nothing else refers to. *)
Definition in_place (f : loc → M loc) : stage := λ component,
  match f 0%nat (World [component] ∅ []) with
  | (w, Ok l) =>
      match heap w !! l with
      | Some r => Ok r
      | None => Raise Unmodelled
      end
  | (_, Raise e) => Raise e
  end.

(** The cells of a row: for each field of the schema the value of the
    record, or the placeholder when the record has none. *)
Definition csv_row (fields : list string) (restval : string)
    (r : gmap string value) : list value :=
  (λ f, default (VStr restval) (r !! f)) <$> fields.

(** The collaborators of [sienna.py] that the properties below do not
    depend on: the remaining stage functions of [r2x.exporter.utils] (the
    unit handling among them); what the table writer does to a record, given
    its [key_mapping] and [unnest_key] arguments, before it looks the fields
    up; Python's [str] on values; [get_year] of [r2x.config_utils];
    [to_class] of the configuration classes; and
    [BaseExporter.time_series_to_csv]. *)
Record Collaborators := {
  ext_apply_property_map : gmap string string → stage;
  ext_apply_pint_deconstruction : gmap string string → stage;
  ext_apply_flatten_key : gset string → stage;
  ext_apply_unnest_key : gmap string string → stage;
  ext_writer_view :
    option (gmap string string) → option string
    → gmap string value → gmap string value;
  ext_py_str : value → string;
  ext_get_year : config_model → option Z;
  ext_to_class : config_model → config_model → result config_model;
  ext_time_series_to_csv : Scenario → System → Z → M unit
}.

Section Exporter.

Context (ext : Collaborators).

#[local] Abbreviation apply_property_map := (ext_apply_property_map ext).
#[local] Abbreviation apply_pint_deconstruction :=
  (ext_apply_pint_deconstruction ext).
#[local] Abbreviation apply_flatten_key := (ext_apply_flatten_key ext).
#[local] Abbreviation apply_unnest_key := (ext_apply_unnest_key ext).
#[local] Abbreviation writer_view := (ext_writer_view ext).
#[local] Abbreviation py_str := (ext_py_str ext).
#[local] Abbreviation get_year := (ext_get_year ext).
#[local] Abbreviation to_class := (ext_to_class ext).
#[local] Abbreviation time_series_to_csv := (ext_time_series_to_csv ext).

(** Modelled from the spec: the table writer ([System._export_dict_to_csv],
    not part of the exported source) writes rows against a fixed schema and
    substitutes the placeholder [restval] for any missing field. *)
Definition _export_dict_to_csv (data : list (gmap string value))
    (fpath : string) (fields : list string) (restval : string)
    (key_mapping : option (gmap string string)) (unnest_key : option string)
  : M unit :=
  write_file fpath
    (CsvFile fields
       (csv_row fields restval ∘ writer_view key_mapping unnest_key <$> data)).

(** Modelled from the spec: [System.export_component_to_csv] extracts the
    records of a component class and hands them to the table writer. *)
Definition export_component_to_csv (system : System) (cls : component_class)
    (fpath : string) (fields : list string) (unnest_key : string)
    (key_mapping : gmap string string) (restval : string) : M unit :=
  _export_dict_to_csv (to_records system cls) fpath fields restval
    (Some key_mapping) (Some unnest_key).

(** **** [SiennaExporter.__init__] (lines 79-101) *)

Definition __init__ (config : Scenario) (system : System)
    (output_folder : string) : M SiennaExporter :=
  config_output_config ← assert_some (output_config config);
  config_input_config ← assert_some (input_config config);
  if negb (is_sienna_config config_output_config) then raise TypeError else
  if is_reeds_config config_input_config
     && solve_year_is_list config_input_config
  then raise NotImplementedError else
  self_output_config ← lift (to_class config_input_config config_output_config);
  let self_property_map :=
    default ∅ (sienna_property_map (defaults self_output_config)) in
  let self_unit_map :=
    default ∅ (sienna_unit_map (defaults self_output_config)) in
  self_output_fields ←
    match table_data (defaults self_output_config) with
    | Some t => mret t
    | None => raise (KeyError "table_data")
    end;
  self_year ← assert_some (get_year self_output_config);
  mret {| exporter_config := config;
          exporter_system := system;
          exporter_output_folder := output_folder;
          exporter_output_config := self_output_config;
          property_map := self_property_map;
          unit_map := self_unit_map;
          output_fields := self_output_fields;
          year := self_year |}.

(** **** [process_bus_data] (lines 132-166) *)

Definition bus_output_fields : list string :=
  ["bus_id"; "name"; "area"; "zone"; "base_voltage"; "bus_type"].

Definition process_bus_data (self : SiennaExporter) (fname : string) : M unit :=
  let records := model_dump (exporter_system self) Bus in
  let key_mapping : gmap string string :=
    {[ "number" := "bus_id"; "load_zone" := "zone" ]} in
  export_records ← lift (get_export_records records
    [ apply_property_map (key_mapping ∪ property_map self);
      apply_pint_deconstruction (unit_map self);
      apply_unnest_key {[ "zone" := "name"; "area" := "name" ]} ]);
  _export_dict_to_csv export_records
    (path_join (exporter_output_folder self) fname) bus_output_fields "NA"
    None None.

(** **** [process_load_data] (lines 168-204) *)

Definition load_output_fields : list string :=
  ["bus_id"; "name"; "available"; "active_power"; "reactive_power";
   "max_active_power"; "max_reeactive_power"].

Definition process_load_data (self : SiennaExporter) (fname : string) : M unit :=
  let records := model_dump (exporter_system self) PowerLoad in
  let key_mapping : gmap string string := {[ "bus" := "bus_id" ]} in
  export_records ← lift (get_export_records records
    [ apply_property_map (key_mapping ∪ property_map self);
      apply_pint_deconstruction (unit_map self);
      apply_unnest_key {[ "bus_id" := "number" ]} ]);
  _export_dict_to_csv export_records
    (path_join (exporter_output_folder self) fname) load_output_fields "0.0"
    None None;;
  logger INFO ("File " +:+ fname +:+ " created.").

(** **** [process_branch_data] (lines 206-262) *)

Definition branch_output_fields : list string :=
  ["name"; "connection_points_from"; "connection_points_to"; "r"; "x";
   "primary_shunt"; "rate"; "rating_up"; "rating_down"; "tap";
   "is_transformer"; "ext"].

(** [Transformer2W.__name__]. *)
Definition Transformer2W_name : string := "Transformer2W".

(** The stage written as a lambda: it sets [is_transformer] from
    [branch_type] and returns the component. *)
Definition set_is_transformer : stage := λ component,
  branch_type ← record_getitem component "branch_type";
  Ok (<["is_transformer" := VBool (py_eq_str branch_type Transformer2W_name)]>
        component).

Definition branch_key_mapping : gmap string string :=
  {[ "from_bus" := "connection_points_from";
     "to_bus" := "connection_points_to";
     "class_type" := "branch_type";
     "rating" := "rate";
     "b" := "primary_shunt" ]}.

(** The stages of [process_branch_data] that come before the lambda. *)
Definition branch_first_stages (self : SiennaExporter) : list stage :=
  [ apply_property_map (branch_key_mapping ∪ property_map self);
    apply_pint_deconstruction (unit_map self);
    apply_unnest_key {[ "connection_points_from" := "number";
                        "connection_points_to" := "number" ]} ].

Definition branch_stages (self : SiennaExporter) : list stage :=
  (branch_first_stages self
   ++ [ set_is_transformer;
        apply_default_value [("tap", VFloat 1)] ])%list.

Definition process_branch_data (self : SiennaExporter) (fname : string) : M unit :=
  let records := model_dump (exporter_system self) ACBranch in
  export_records ← lift (get_export_records records (branch_stages self));
  _export_dict_to_csv export_records
    (path_join (exporter_output_folder self) fname) branch_output_fields "NA"
    None None;;
  logger INFO ("File " +:+ fname +:+ " created.").

(** **** [process_dc_branch_data] (lines 264-294) *)

Definition dc_branch_output_fields : list string :=
  ["name"; "connection_points_from"; "connection_points_to"; "rate"; "loss"].

Definition process_dc_branch_data (self : SiennaExporter) (fname : string)
  : M unit :=
  export_component_to_csv (exporter_system self) DCBranch
    (path_join (exporter_output_folder self) fname) dc_branch_output_fields
    "number"
    {[ "from_bus" := "connection_points_from";
       "to_bus" := "connection_points_to";
       "class_type" := "branch_type";
       "rating_up" := "rate" ]}
    "NA";;
  logger INFO ("File " +:+ fname +:+ " created.").

(** **** [process_gen_data] (lines 296-335) *)

(** [sorted(records, key=itemgetter("name"), reverse=True)]: a stable sort
    on the keys, in descending order.  Keys are compared as strings, by code
    point; names are strings in the component model, and the ordering of
    other keys is not modelled. *)
Definition name_key (r : gmap string value) : result string :=
  v ← record_getitem r "name";
  match v with
  | VStr s => Ok s
  | _ => Raise Unmodelled
  end.

Fixpoint insert_desc {A} (x : string * A) (l : list (string * A))
  : list (string * A) :=
  match l with
  | [] => [x]
  | y :: l' =>
      if String.ltb x.1 y.1 then y :: insert_desc x l' else x :: y :: l'
  end.

Definition sort_desc {A} (l : list (string * A)) : list (string * A) :=
  foldr insert_desc [] l.

Definition sorted_by_name_reverse (records : list (gmap string value))
  : result (list (gmap string value)) :=
  keys ← mapM name_key records;
  Ok ((sort_desc (zip keys records)).*2).

Definition gen_stages (self : SiennaExporter) : list stage :=
  let key_mapping : gmap string string :=
    {[ "bus" := "bus_id"; "prime_mover_type" := "unit_type" ]} in
  [ in_place apply_operation_table_data;
    apply_flatten_key {[ "active_power_limits" ]};
    apply_property_map (key_mapping ∪ property_map self);
    apply_pint_deconstruction (unit_map self);
    apply_unnest_key {[ "bus_id" := "number" ]};
    apply_default_value
      [("fuel_price", VFloat 0); ("power_factor", VFloat 1);
       ("startup_cost", VFloat 0)] ].

(** Lines 328-335: sorting and writing the export records. *)
Definition write_generators (self : SiennaExporter) (fname : string)
    (export_records : list (gmap string value)) : M unit :=
  sorted_records ← lift (sorted_by_name_reverse export_records);
  fields ← lift (match output_fields self !! "generator" with
                 | Some f => Ok f
                 | None => Raise (KeyError "generator")
                 end);
  _export_dict_to_csv sorted_records
    (path_join (exporter_output_folder self) fname) fields "NA" None None;;
  logger INFO ("File " +:+ fname +:+ " created.").

Definition process_gen_data (self : SiennaExporter) (fname : string) : M unit :=
  let records := model_dump (exporter_system self) Generator in
  export_records ← lift (get_export_records records (gen_stages self));
  write_generators self fname export_records.

(** **** [process_reserves_data] (lines 337-401) *)

Definition reserves_output_fields : list string :=
  ["name"; "requirement"; "timeframe"; "eligible_region"; "direction";
   "contributing_devices"; "eligible_device_categories";
   "eligible_device_subcategories"].

(** The body of the loop over the reserves: the dictionary appended to
    [output_data], if any.  The records come fresh from [to_records] and
    nothing else refers to them, so the updates are written functionally. *)
Definition reserve_output_dict (reserve_map : value)
    (reserve : gmap string value) : result (option (gmap string value)) :=
  name ← record_getitem reserve "name";
  present ← py_in_dict name reserve_map;
  if present : bool then
    direction ← record_getitem reserve "direction";
    direction_name ← py_getattr direction "name";
    let output_dict := <["direction" := direction_name]> reserve in
    let output_dict :=
      <["eligible_device_categories" := VStr "(Generator,Storage)"]> output_dict in
    name ← record_getitem output_dict "name";
    contributing_devices ← py_dict_get_value reserve_map name;
    devices ← py_iter contributing_devices;
    Ok (Some (<["contributing_devices" :=
                  VStr (remove_char apostrophe (py_str (VTuple devices)))]>
                output_dict))
  else Ok None.

Fixpoint reserves_loop (reserve_map : value)
    (reserves : list (gmap string value))
    (output_data : list (gmap string value))
  : result (list (gmap string value)) :=
  match reserves with
  | [] => Ok output_data
  | reserve :: rest =>
      appended ← reserve_output_dict reserve_map reserve;
      reserves_loop reserve_map rest
        (match appended with
         | Some output_dict => (output_data ++ [output_dict])%list
         | None => output_data
         end)
  end.

Definition reserve_stages (self : SiennaExporter) : list stage :=
  let key_mapping : gmap string string :=
    property_map self
    ∪ {[ "region" := "eligible_region"; "max_requirement" := "requirement" ]} in
  [ apply_property_map (key_mapping ∪ property_map self);
    apply_pint_deconstruction (unit_map self);
    apply_unnest_key {[ "eligible_region" := "name" ]} ].

Definition no_reserve_map_msg : string :=
  "Reserve map class not found on the system. Skipping reserve contributing devices file.".

Definition multiple_reserve_maps_msg : string :=
  "We do not support multiple reserve maps per system".

Definition process_reserves_data (self : SiennaExporter) (fname : string)
  : M unit :=
  reserve_map_list ← lift (mapM (λ component, record_getitem component "mapping")
                             (to_records (exporter_system self) ReserveMap));
  match reserve_map_list with
  | [] => logger WARNING no_reserve_map_msg
  | _ :: _ :: _ => logger WARNING multiple_reserve_maps_msg
  | [reserve_map] =>
      let reserves := to_records (exporter_system self) Reserve in
      output_data ← lift (reserves_loop reserve_map reserves []);
      export_records ← lift (get_export_records output_data (reserve_stages self));
      _export_dict_to_csv export_records
        (path_join (exporter_output_folder self) fname)
        reserves_output_fields "NA" None None;;
      logger INFO ("File " +:+ fname +:+ " created.")
  end.

(** **** [process_storage_data] (lines 403-487) *)

Definition storage_output_fields : list string :=
  ["name"; "position"; "available"; "generator_name"; "bus_id";
   "active_power"; "rating"; "input_efficiency"; "output_efficiency";
   "storage_capacity"; "min_storage_capacity"; "max_storage_capacity";
   "input_active_power_limit_min"; "output_active_power_limit_max";
   "output_active_power_limit_min"; "unit_type"].

(** [d[k] = d[k']]. *)
Definition copy_item (d : loc) (k k' : string) : M unit :=
  v ← getitem d k';
  setitem d k v.

(** The body of the loop over [storage_list] (lines 448-475).  [output_dict]
    is another name of the dictionary [storage]; [tail_copy] is a new
    dictionary. *)
Definition storage_body (system : System) (storage : loc)
    (output_data : list loc) : M (list loc) :=
  let output_dict := storage in
  copy_item output_dict "generator_name" "name";;
  copy_item output_dict "input_active_power_limit_max" "active_power_limits_max";;
  copy_item output_dict "output_active_power_limit_max" "active_power_limits_max";;
  setitem output_dict "input_active_power_limit_min" (VInt 0);;
  setitem output_dict "output_active_power_limit_min" (VInt 0);;
  copy_item output_dict "active_power" "active_power";;
  bus ← getitem output_dict "bus";
  bus_id ← (if truthy bus then
              label ← getitem output_dict "bus";
              bus_component ← lift (get_component_by_label system label);
              mret (py_getattr_default bus_component "number")
            else mret VNone);
  setitem output_dict "bus_id" bus_id;;
  copy_item output_dict "rating" "rating";;
  original_name ← getitem output_dict "name";
  head_name ← lift (py_add_str original_name "_head");
  setitem output_dict "name" head_name;;
  setitem output_dict "position" (VStr "head");;
  let output_data := (output_data ++ [output_dict])%list in
  tail_copy ← dict_copy output_dict;
  tail_name ← lift (py_add_str original_name "_tail");
  setitem tail_copy "name" tail_name;;
  setitem output_dict "position" (VStr "tail");;
  mret (output_data ++ [tail_copy])%list.

Fixpoint storage_loop (system : System) (storage_list : list loc)
    (output_data : list loc) : M (list loc) :=
  match storage_list with
  | [] => mret output_data
  | storage :: rest =>
      output_data ← storage_body system storage output_data;
      storage_loop system rest output_data
  end.

(** Lines 446-475: the loop on dictionaries holding the records of
    [storage_list], and the rows that [output_data] names when it is handed
    to the writer. *)
Definition storage_output_data (system : System)
    (storage_list : list (gmap string value)) : M (list (gmap string value)) :=
  storage_dicts ← mapM alloc storage_list;
  output_data ← storage_loop system storage_dicts [];
  mapM deref output_data.

Definition process_storage_data (self : SiennaExporter) (fname : string)
  : M unit :=
  storage_list ← lift (get_export_records
    (to_records_storage (exporter_system self))
    [ apply_property_map (property_map self);
      apply_flatten_key {[ "active_power_limits" ]};
      apply_pint_deconstruction (unit_map self) ]);
  match storage_list with
  | [] => logger WARNING "No storage devices found"
  | _ =>
      output_data ← storage_output_data (exporter_system self) storage_list;
      _export_dict_to_csv output_data
        (path_join (exporter_output_folder self) fname)
        storage_output_fields "NA" (Some (property_map self)) (Some "number");;
      logger INFO "File storage.csv created."
  end.

(** **** [export_data] (lines 498-504) *)

Definition export_data (self : SiennaExporter) : M unit :=
  logger DEBUG "Saving Sienna data and timeseries files.";;
  time_series_to_csv (exporter_config self) (exporter_system self) (year self);;
  logger INFO "Saving time series data.".

(** **** [create_timeseries_pointers] (lines 507-577) *)

(** [f"{reference_year}"]. *)
Definition format_year (reference_year : option Z) : string :=
  match reference_year with
  | Some y => pretty y
  | None => "None"
  end.

(** The pointer record of one component and one metadata entry. *)
Definition ts_pointers (config : Scenario) (output_folder : string)
    (time_series_folder : string) (reference_year : option Z)
    (c : component) (ts : ts_metadata) : result (gmap string value) :=
  ts_resolution ← match resolution ts with
                  | Some d => Ok d
                  | None => Raise AssertionError
                  end;
  let ts_component_name := class_name c +:+ "_" +:+ variable_name ts in
  Ok {[ "category" := VStr (class_name c);
        "component_name" := VStr (component_name c);
        "data_file" :=
          VStr (path_join (path_join output_folder time_series_folder)
                  (ts_component_name +:+ "_" +:+ scenario_name config +:+ "_"
                   +:+ format_year reference_year +:+ ".csv"));
        "normalization_factor" := VStr "MAX";
        "resolution" := VInt (seconds ts_resolution);
        "name" := VStr (variable_name ts);
        "scaling_factor_multiplier_module" := VStr "PowerSystems";
        "scaling_factor_multiplier" := VStr "get_max_active_power" ]}.

(** The inner loop, over the metadata of one component. *)
Fixpoint metadata_loop (pointer : ts_metadata → result (gmap string value))
    (metadata : list ts_metadata) (ts_pointers_list : list (gmap string value))
  : result (list (gmap string value)) :=
  match metadata with
  | [] => Ok ts_pointers_list
  | ts :: rest =>
      p ← pointer ts;
      metadata_loop pointer rest (ts_pointers_list ++ [p])%list
  end.

(** The outer loop, over the components that have a time series. *)
Fixpoint components_loop (system : System)
    (pointer : component → ts_metadata → result (gmap string value))
    (components : list component) (ts_pointers_list : list (gmap string value))
  : result (list (gmap string value)) :=
  match components with
  | [] => Ok ts_pointers_list
  | c :: rest =>
      ts_pointers_list ←
        metadata_loop (pointer c) (list_time_series_metadata system c)
          ts_pointers_list;
      components_loop system pointer rest ts_pointers_list
  end.

(** Lines 549-573: the list of pointers. *)
Definition ts_pointers_list (config : Scenario) (system : System)
    (output_folder : string) (time_series_folder : string)
    (reference_year : option Z) : result (list (gmap string value)) :=
  components_loop system
    (ts_pointers config output_folder time_series_folder reference_year)
    (filter (λ x, has_time_series system x = true) (get_components system)) [].

Definition create_timeseries_pointers (config : Scenario) (system : System)
    (reference_year : option Z) (output_folder : option string)
    (default_fname : string) (time_series_folder : string) : M bool :=
  logger INFO "Exporting time series pointers.";;
  output_folder ← assert_some
    (match output_folder with
     | Some f => if String.eqb f "" then scenario_output_folder config else Some f
     | None => scenario_output_folder config
     end);
  reference_year ←
    match reference_year with
    | Some y => if y =? 0 then
                  c ← assert_some (output_config config); mret (get_year c)
                else mret (Some y)
    | None => c ← assert_some (output_config config); mret (get_year c)
    end;
  pointers ← lift (ts_pointers_list config system output_folder
                     time_series_folder reference_year);
  write_file (path_join output_folder default_fname) (JsonFile pointers);;
  logger INFO ("File " +:+ path_join output_folder default_fname +:+ " created.");;
  mret true.

(** **** [run] (lines 103-130) *)

Definition run (self : SiennaExporter) : M SiennaExporter :=
  logger INFO "Starting SiennaExporter";;
  process_bus_data self "bus.csv";;
  process_load_data self "load.csv";;
  process_branch_data self "branch.csv";;
  process_dc_branch_data self "dc_branch.csv";;
  process_gen_data self "gen.csv";;
  process_reserves_data self "reserves.csv";;
  process_storage_data self "storage.csv";;
  export_data self;;
  create_timeseries_pointers (exporter_config self) (exporter_system self) None
    (scenario_output_folder (exporter_config self))
    "timeseries_pointers.json" "Data";;
  mret self.

End Exporter.

End Sienna.

Import Sienna.

(** ** The vocabulary of the statements, and the data of the examples *)

(** The field [k] of the dictionary [l] in the world [w]. *)
Definition field (w : world) (l : loc) (k : string) : option value :=
  heap w !! l ≫= (.!! k).

(** Both loops of [_variable_type_parsing] write, for the point of index
    [i], its abscissa under one column and its ordinate under another. *)
Definition two_col_point (fcol gcol : nat → string)
    (component : loc) (i : nat) (xy : value) : M unit :=
  '(x_coord, y_coord) ← lift (unpack2 xy);
  setitem component (fcol i) x_coord;;
  setitem component (gcol i) y_coord.

Definition point_tuple (p : value * value) : value := VTuple [p.1; p.2].

(** The testable examples of the specification: the points
    [(0,0), (50,1000), (100,2500)] under both discriminators. *)
Definition example_points : list (value * value) :=
  [(VInt 0, VInt 0); (VInt 50, VInt 1000); (VInt 100, VInt 2500)].

Definition example_function_data : gmap string value :=
  {[ "points" := VList (point_tuple <$> example_points) ]}.

Definition example_value_curve : gmap string value :=
  {[ "function_data" :=
       VObj "PiecewiseLinearData" {[ "points" ]} example_function_data ]}.

Definition example_variable : gmap string value :=
  {[ "value_curve" := VDict example_value_curve ]}.

Definition example_cost_dict (variable_type : string) : gmap string value :=
  {[ "variable" := VDict example_variable;
     "variable_type" := VStr variable_type ]}.

Definition one_component (r : gmap string value) : world := World [r] ∅ [].

(** A computation keeps the field [k] of the dictionary [l]: whatever it
    does, and whether or not it raises, that field reads the same after. *)
Definition keeps {A} (c : M A) (l : loc) (k : string) : Prop :=
  ∀ w, field (c w).1 l k = field w l k.

(** The docstring example of [apply_operation_table_data], with the point
    list of the specification. *)
Definition example_vom_cost : value :=
  VDict {[ "function_data" :=
             VObj "LinearFunctionData" {[ "proportional_term" ]}
               {[ "proportional_term" := VInt 10 ]} ]}.

Definition example_variable_cost (fuel_cost : value) : gmap string value :=
  {[ "vom_cost" := example_vom_cost;
     "fuel_cost" := fuel_cost;
     "value_curve" := VDict example_value_curve ]}.

Definition example_operation_cost (fuel_cost : value) : gmap string value :=
  {[ "variable" := VDict (example_variable_cost fuel_cost);
     "variable_type" := VStr "CostCurve" ]}.

Definition example_component (fuel_cost : value) : gmap string value :=
  {[ "name" := VStr "gen1";
     "operation_cost" := VDict (example_operation_cost fuel_cost) ]}.

(** The binary64 number that Python reads [0.05] as. *)
Definition float_0_05 : float := 0x1.999999999999ap-5%float.

(** The name of a record, when it is a string. *)
Definition name_of (r : gmap string value) : string :=
  match r !! "name" with Some (VStr s) => s | _ => "" end.

Definition storage_bus_id (system : System) (r : gmap string value) : value :=
  match r !! "bus" with
  | Some bus =>
      if truthy bus then
        match get_component_by_label system bus with
        | Ok c => py_getattr_default c "number"
        | Raise _ => VNone
        end
      else VNone
  | None => VNone
  end.

Definition item (r : gmap string value) (k : string) : value := default VNone (r !! k).

Definition storage_fields (system : System) (r : gmap string value) : gmap string value :=
  <["rating" := item r "rating"]>
  (<["bus_id" := storage_bus_id system r]>
  (<["active_power" := item r "active_power"]>
  (<["output_active_power_limit_min" := VInt 0]>
  (<["input_active_power_limit_min" := VInt 0]>
  (<["output_active_power_limit_max" := item r "active_power_limits_max"]>
  (<["input_active_power_limit_max" := item r "active_power_limits_max"]>
  (<["generator_name" := item r "name"]> r))))))).

Definition head_dict (system : System) (r : gmap string value) : gmap string value :=
  <["position" := VStr "head"]>
  (<["name" := VStr (name_of r +:+ "_head")]> (storage_fields system r)).

Definition head_row system r : gmap string value :=
  <["position" := VStr "tail"]> (head_dict system r).
Definition tail_row system r : gmap string value :=
  <["name" := VStr (name_of r +:+ "_tail")]> (head_dict system r).

Record storage_ready (system : System) (r : gmap string value) : Prop := {
  ready_name : ∃ s, r !! "name" = Some (VStr s);
  ready_limits : is_Some (r !! "active_power_limits_max");
  ready_active_power : is_Some (r !! "active_power");
  ready_rating : is_Some (r !! "rating");
  ready_bus : ∃ bus, r !! "bus" = Some bus
      ∧ (truthy bus = true → ∃ c, get_component_by_label system bus = Ok c)
}.

(** The rows of one storage record. *)
Definition storage_rows (system : System) (r : gmap string value)
  : list (gmap string value) :=
  [head_row system r; tail_row system r].

Definition example_bus : value :=
  VObj "Bus" ∅ {[ "name" := VStr "bus1"; "number" := VInt 1 ]}.

Definition example_storage : gmap string value :=
  {[ "name" := VStr "X";
     "active_power" := VFloat 5;
     "active_power_limits_max" := VFloat 10;
     "rating" := VFloat 10;
     "bus" := VStr "bus1" ]}.

Definition example_system : System :=
  {| model_dump := λ _, [];
     to_records := λ _, [];
     to_records_storage := [example_storage];
     get_component_by_label := λ label,
       if py_eq_str label "bus1" then Ok example_bus
       else Raise (KeyError "label");
     get_components := [];
     has_time_series := λ _, false;
     list_time_series_metadata := λ _, [] |}.

(** Whether the name of a reserve is a key of the reserve map. *)
Definition reserve_in_map (m : gmap string value) (r : gmap string value) : bool :=
  match r !! "name" with
  | Some (VStr s) => bool_decide (is_Some (m !! s))
  | _ => false
  end.

(** The row of [reserves.csv] that a reserve of the map gives rise to. *)
Definition reserve_row (ext : Collaborators) (self : SiennaExporter)
    (m : gmap string value) (r : gmap string value) (row : list value) : Prop :=
  ∃ output_dict export_record : gmap string value,
    reserve_output_dict ext (VDict m) r = Ok (Some output_dict)
    ∧ get_export_properties
        (reserve_stages ext self) output_dict = Ok export_record
    ∧ row = csv_row reserves_output_fields "NA"
              (ext_writer_view ext None None export_record).

(** The two failures the specification names. *)
Definition wrong_output_type (config : Scenario) : Prop :=
  ∃ c, output_config config = Some c ∧ is_sienna_config c = false.

Definition multiple_solve_years (config : Scenario) : Prop :=
  ∃ c ys, input_config config = Some c ∧ solve_year c = SolveYearList ys.

(** Collaborators for the examples: stages that change nothing, a writer
    that takes the records as they are, a year, and a [str] that prints a
    tuple of plain strings. *)
Definition example_str_items (l : list value) : list string :=
  (λ v, match v with
        | VStr s => String apostrophe s +:+ String apostrophe ""
        | _ => "?"
        end) <$> l.

Definition example_str (v : value) : string :=
  match v with
  | VTuple [x] => "(" +:+ String.concat ", " (example_str_items [x]) +:+ ",)"
  | VTuple l => "(" +:+ String.concat ", " (example_str_items l) +:+ ")"
  | VStr s => s
  | _ => "?"
  end.

Definition example_ext : Collaborators :=
  {| ext_apply_property_map := λ _ r, Ok r;
     ext_apply_pint_deconstruction := λ _ r, Ok r;
     ext_apply_flatten_key := λ _ r, Ok r;
     ext_apply_unnest_key := λ _ r, Ok r;
     ext_writer_view := λ _ _ r, r;
     ext_py_str := example_str;
     ext_get_year := λ _, Some 2030;
     ext_to_class := λ _ c, Ok c;
     ext_time_series_to_csv := λ _ _ _, mret () |}.

(** A scenario with a Sienna output configuration and no input
    configuration. *)
Definition empty_defaults : defaults_dict :=
  {| sienna_property_map := None; sienna_unit_map := None;
     table_data := Some ∅ |}.

Definition sienna_output : config_model :=
  {| config_class_of := SiennaConfig; solve_year := SolveYearNone;
     defaults := empty_defaults |}.

Definition scenario_without_input : Scenario :=
  {| scenario_name := "test"; scenario_output_folder := Some "out";
     input_config := None; output_config := Some sienna_output |}.

Definition empty_system : System :=
  {| model_dump := λ _, [];
     to_records := λ _, [];
     to_records_storage := [];
     get_component_by_label := λ _, Raise (KeyError "label");
     get_components := [];
     has_time_series := λ _, false;
     list_time_series_metadata := λ _, [] |}.

(** [a] comes before [b] in descending order of names. *)
Definition name_ge (a b : string) : Prop := String.leb b a = true.

(** The same order on records paired with their key. *)
Definition key_ge {A} (x y : string * A) : Prop := name_ge x.1 y.1.

(** The entity tables of the exporter. *)
Inductive table :=
| BusTable | LoadTable | BranchTable | DCBranchTable
| GeneratorTable | ReservesTable | StorageTable.

(** The placeholder of a table: ["0.0"] for load, ["NA"] for the others. *)
Definition placeholder (t : table) : string :=
  match t with
  | LoadTable => "0.0"
  | _ => "NA"
  end.

(** The fixed schema of a table; the generator schema comes with the
    configuration. *)
Definition schema (self : SiennaExporter) (t : table) : list string :=
  match t with
  | BusTable => bus_output_fields
  | LoadTable => load_output_fields
  | BranchTable => branch_output_fields
  | DCBranchTable => dc_branch_output_fields
  | GeneratorTable => default [] (output_fields self !! "generator")
  | ReservesTable => reserves_output_fields
  | StorageTable => storage_output_fields
  end.

(** A computation leaves the files alone. *)
Definition keeps_files {A} (c : M A) : Prop := ∀ w, files (c w).1 = files w.

(** The procedure that writes a table. *)
Definition process_table (ext : Collaborators) (t : table)
  : SiennaExporter → string → M unit :=
  match t with
  | BusTable => process_bus_data ext
  | LoadTable => process_load_data ext
  | BranchTable => process_branch_data ext
  | DCBranchTable => process_dc_branch_data ext
  | GeneratorTable => process_gen_data ext
  | ReservesTable => process_reserves_data ext
  | StorageTable => process_storage_data ext
  end.

(** The stages that [process_bus_data], [process_load_data] and
    [process_storage_data] pass to [get_export_records]. *)
Definition bus_stages (ext : Collaborators) (self : SiennaExporter) : list stage :=
  [ ext_apply_property_map ext
      ({[ "number" := "bus_id"; "load_zone" := "zone" ]} ∪ property_map self);
    ext_apply_pint_deconstruction ext (unit_map self);
    ext_apply_unnest_key ext {[ "zone" := "name"; "area" := "name" ]} ].

Definition load_stages (ext : Collaborators) (self : SiennaExporter) : list stage :=
  [ ext_apply_property_map ext ({[ "bus" := "bus_id" ]} ∪ property_map self);
    ext_apply_pint_deconstruction ext (unit_map self);
    ext_apply_unnest_key ext {[ "bus_id" := "number" ]} ].

Definition storage_stages (ext : Collaborators) (self : SiennaExporter)
  : list stage :=
  [ ext_apply_property_map ext (property_map self);
    ext_apply_flatten_key ext {[ "active_power_limits" ]};
    ext_apply_pint_deconstruction ext (unit_map self) ].

(** The [key_mapping] argument of [process_dc_branch_data]. *)
Definition dc_branch_key_mapping : gmap string string :=
  {[ "from_bus" := "connection_points_from";
     "to_bus" := "connection_points_to";
     "class_type" := "branch_type";
     "rating_up" := "rate" ]}.

(** The records that the procedure of a table hands to the table writer:
    the outcome of its pipeline, when every step of it has returned.  No
    list is handed over when a step raises, when there is no reserve map or
    more than one, when there is no storage record, or when the
    configuration has no generator schema. *)
Definition handed_to_writer (ext : Collaborators) (t : table)
    (self : SiennaExporter) (w : world) (data : list (gmap string value))
  : Prop :=
  let system := exporter_system self in
  match t with
  | BusTable =>
      get_export_records (model_dump system Bus) (bus_stages ext self) = Ok data
  | LoadTable =>
      get_export_records (model_dump system PowerLoad) (load_stages ext self)
      = Ok data
  | BranchTable =>
      get_export_records (model_dump system ACBranch) (branch_stages ext self)
      = Ok data
  | DCBranchTable => data = to_records system DCBranch
  | GeneratorTable =>
      is_Some (output_fields self !! "generator")
      ∧ ∃ export_records,
          get_export_records (model_dump system Generator) (gen_stages ext self)
          = Ok export_records
          ∧ sorted_by_name_reverse export_records = Ok data
  | ReservesTable =>
      ∃ reserve_map output_data,
        mapM (λ component, record_getitem component "mapping")
          (to_records system ReserveMap) = Ok [reserve_map]
        ∧ reserves_loop ext reserve_map (to_records system Reserve) []
          = Ok output_data
        ∧ get_export_records output_data (reserve_stages ext self) = Ok data
  | StorageTable =>
      ∃ storage_list,
        get_export_records (to_records_storage system) (storage_stages ext self)
        = Ok storage_list
        ∧ storage_list ≠ []
        ∧ (storage_output_data system storage_list w).2 = Ok data
  end.

(** The record that the writer looks the fields up in: the record handed
    over, seen through the [key_mapping] and [unnest_key] arguments that the
    procedure of the table passes. *)
Definition table_view (ext : Collaborators) (t : table) (self : SiennaExporter)
  : gmap string value → gmap string value :=
  match t with
  | DCBranchTable =>
      ext_writer_view ext (Some dc_branch_key_mapping) (Some "number")
  | StorageTable =>
      ext_writer_view ext (Some (property_map self)) (Some "number")
  | _ => ext_writer_view ext None None
  end.

(** The row of the record [r]: one cell per field of the schema, holding the
    value that [r] has for the field, or the placeholder when [r] has no
    such field. *)
Definition row_of (fields : list string) (restval : string)
    (r : gmap string value) (row : list value) : Prop :=
  length row = length fields
  ∧ ∀ (i : nat) (f : string), fields !! i = Some f →
      row !! i = Some (match r !! f with
                       | Some v => v
                       | None => VStr restval
                       end).

(** The pairs of a component that has a time series and one of its metadata
    entries, in iteration order. *)
Definition ts_pairs (system : System) : list (component * ts_metadata) :=
  c ← filter (λ x, has_time_series system x = true) (get_components system);
  (λ ts, (c, ts)) <$> list_time_series_metadata system c.

(** A component with one time series of daily resolution. *)
Definition daily : timedelta := Timedelta 1 0 0.

Definition hydro : component := Component "HydroDispatch" "hydro1".

Definition daily_system : System :=
  {| model_dump := λ _, [];
     to_records := λ _, [];
     to_records_storage := [];
     get_component_by_label := λ _, Raise (KeyError "label");
     get_components := [hydro];
     has_time_series := λ _, true;
     list_time_series_metadata := λ _, [TsMetadata "hydro_budget" (Some daily)] |}.

Definition example_scenario : Scenario :=
  {| scenario_name := "test"; scenario_output_folder := Some "out";
     input_config := None; output_config := None |}.

(** An exporter over a given system, as the constructor would build it. *)
Definition example_exporter (system : System) : SiennaExporter :=
  {| exporter_config := example_scenario;
     exporter_system := system;
     exporter_output_folder := "out";
     exporter_output_config := sienna_output;
     property_map := ∅;
     unit_map := ∅;
     output_fields := {[ "generator" := ["name"; "fuel_price"; "unit_type"] ]};
     year := 2030 |}.

(** Two reserves, one of them in the reserve map. *)
Definition direction_up : value :=
  VObj "ReserveDirection" ∅ {[ "name" := VStr "UP" ]}.

Definition spin : gmap string value :=
  {[ "name" := VStr "spin"; "direction" := direction_up ]}.

Definition flex : gmap string value :=
  {[ "name" := VStr "flex"; "direction" := direction_up ]}.

Definition reserve_mapping : gmap string value :=
  {[ "spin" := VList [VStr "gen1"; VStr "gen2"] ]}.

Definition reserve_system : System :=
  {| model_dump := λ _, [];
     to_records := λ cls,
       match cls with
       | ReserveMap => [ {[ "name" := VStr "reserve_map";
                            "mapping" := VDict reserve_mapping ]} ]
       | Reserve => [spin; flex]
       | _ => []
       end;
     to_records_storage := [];
     get_component_by_label := λ _, Raise (KeyError "label");
     get_components := [];
     has_time_series := λ _, false;
     list_time_series_metadata := λ _, [] |}.

(** A transformer, a line with its own tap, and three generators. *)
Definition example_transformer : gmap string value :=
  {[ "name" := VStr "t1"; "branch_type" := VStr "Transformer2W" ]}.

Definition example_line : gmap string value :=
  {[ "name" := VStr "l1"; "branch_type" := VStr "Line"; "tap" := VFloat 2 ]}.

Definition example_generators : list (gmap string value) :=
  [ {[ "name" := VStr "alpha" ]};
    {[ "name" := VStr "charlie"; "fuel_price" := VFloat 50 ]};
    {[ "name" := VStr "bravo" ]} ].

(** A system with one load that has no power data. *)
Definition load_system : System :=
  {| model_dump := λ cls,
       match cls with
       | PowerLoad => [ {[ "name" := VStr "load1"; "bus_id" := VInt 3 ]} ]
       | _ => []
       end;
     to_records := λ _, [];
     to_records_storage := [];
     get_component_by_label := λ _, Raise (KeyError "label");
     get_components := [];
     has_time_series := λ _, false;
     list_time_series_metadata := λ _, [] |}.

(** * Properties *)

(** ** Running the monad: equations for the store operations *)

Section Store.
Implicit Types (w : world) (l : loc) (r : gmap string value).

Lemma bind_ok {A B} (c : M A) (f : A → M B) w w' a :
  c w = (w', Ok a) → (c ≫= f) w = f a w'.
Proof. intros H. unfold mbind, M_bind. by rewrite H. Qed.

Lemma bind_raise {A B} (c : M A) (f : A → M B) w w' e :
  c w = (w', Raise e) → (c ≫= f) w = (w', Raise e).
Proof. intros H. unfold mbind, M_bind. by rewrite H. Qed.

Lemma deref_ok w l r : heap w !! l = Some r → deref l w = (w, Ok r).
Proof. intros H. unfold deref. by rewrite H. Qed.

Lemma setitem_ok w l r k v :
  heap w !! l = Some r →
  setitem l k v w
  = (World (<[l := <[k := v]> r]> (heap w)) (files w) (log w), Ok ()).
Proof. intros H. unfold setitem. by rewrite H. Qed.

Lemma getitem_ok w l r k v :
  heap w !! l = Some r → r !! k = Some v → getitem l k w = (w, Ok v).
Proof.
  intros Hl Hk. unfold getitem.
  rewrite (bind_ok _ _ _ _ _ (deref_ok _ _ _ Hl)). by rewrite Hk.
Qed.

Lemma dict_get_ok w l r k dflt :
  heap w !! l = Some r → dict_get l k dflt w = (w, Ok (default dflt (r !! k))).
Proof.
  intros Hl. unfold dict_get.
  by rewrite (bind_ok _ _ _ _ _ (deref_ok _ _ _ Hl)).
Qed.

Lemma dict_get_some w l r k dflt v :
  heap w !! l = Some r → r !! k = Some v → dict_get l k dflt w = (w, Ok v).
Proof. intros Hl Hk. rewrite (dict_get_ok _ _ _ _ _ Hl). by rewrite Hk. Qed.

Lemma heap_insert_lookup w l r r' :
  heap w !! l = Some r → <[l := r']> (heap w) !! l = Some r'.
Proof.
  intros H. apply list_lookup_insert_eq. by eapply lookup_lt_Some.
Qed.
End Store.

(** ** Operation cost: the curve columns *)

Section CurveColumns.

Lemma output_point_col_inj : Inj (=) (=) output_point_col.
Proof.
  intros i j H. unfold output_point_col in H.
  apply String.app_inj in H. by apply (inj pretty).
Qed.

Lemma cost_point_col_inj : Inj (=) (=) cost_point_col.
Proof.
  intros i j H. unfold cost_point_col in H.
  apply String.app_inj in H. by apply (inj pretty).
Qed.

Lemma heat_rate_col_inj : Inj (=) (=) heat_rate_col.
Proof.
  intros [|i] [|j] H; unfold heat_rate_col in H; try done.
  apply String.app_inj in H. by apply (inj pretty).
Qed.

Lemma output_cost_col_ne i j : output_point_col i ≠ cost_point_col j.
Proof. unfold output_point_col, cost_point_col. simpl. discriminate. Qed.

Lemma output_heat_col_ne i j : output_point_col i ≠ heat_rate_col j.
Proof.
  unfold output_point_col, heat_rate_col. destruct j; simpl; discriminate.
Qed.

Lemma two_col_loop (fcol gcol : nat → string) (c : loc) :
  Inj (=) (=) fcol → Inj (=) (=) gcol → (∀ i j, fcol i ≠ gcol j) →
  ∀ (pts : list (value * value)) (i : nat) (w : world) (r : gmap string value),
    heap w !! c = Some r →
    ∃ r' : gmap string value,
      for_enumerate i (point_tuple <$> pts) (two_col_point fcol gcol c) w
      = (World (<[c := r']> (heap w)) (files w) (log w), Ok ())
      ∧ (∀ k x y, pts !! k = Some (x, y) →
           r' !! fcol (i + k)%nat = Some x ∧ r' !! gcol (i + k)%nat = Some y)
      ∧ (∀ key, (∀ j, (i ≤ j)%nat → key ≠ fcol j ∧ key ≠ gcol j) →
           r' !! key = r !! key).
Proof.
  intros Hf Hg Hfg pts.
  induction pts as [|[x y] pts IH]; intros i w r Hr.
  - exists r. split_and!.
    + simpl. unfold mret, M_ret. destruct w as [h fs lg]; simpl in *.
      by rewrite list_insert_id.
    + intros k x y Hk. by rewrite lookup_nil in Hk.
    + done.
  - set (r1 := <[fcol i := x]> r).
    set (r2 := <[gcol i := y]> r1).
    set (w2 := World (<[c := r2]> (heap w)) (files w) (log w)).
    assert (Hbody : two_col_point fcol gcol c i (point_tuple (x, y)) w
                    = (w2, Ok ())).
    { unfold two_col_point, point_tuple, unpack2, lift. simpl.
      unfold mbind at 1, M_bind. simpl.
      erewrite bind_ok; last by apply setitem_ok.
      erewrite setitem_ok; last by (simpl; eapply heap_insert_lookup).
      simpl. by rewrite list_insert_insert_eq. }
    destruct (IH (S i) w2 r2) as (r' & Hrun & Hpts & Hframe).
    { simpl. by eapply heap_insert_lookup. }
    exists r'. split_and!.
    + rewrite fmap_cons. cbn [for_enumerate].
      rewrite (bind_ok _ _ _ _ _ Hbody). cbv beta.
      rewrite Hrun. simpl. by rewrite list_insert_insert_eq.
    + intros [|k] x' y' Hk; simpl in Hk.
      * injection Hk as <- <-. rewrite Nat.add_0_r.
        rewrite !Hframe.
        -- unfold r2, r1. split; [|by rewrite lookup_insert_eq].
           rewrite lookup_insert_ne; [by rewrite lookup_insert_eq|].
           intros E. by eapply Hfg.
        -- intros j Hj. split; [intros E; symmetry in E; by eapply Hfg|].
           intros E%Hg. lia.
        -- intros j Hj. split; [intros E%Hf; lia|apply Hfg].
      * replace (i + S k)%nat with (S i + k)%nat by lia. by apply Hpts.
    + intros key Hkey. rewrite Hframe.
      * unfold r2, r1. destruct (Hkey i) as [H1 H2]; [lia|].
        by rewrite !lookup_insert_ne.
      * intros j Hj. apply Hkey. lia.
Qed.

End CurveColumns.

Lemma py_eq_str_true (v : value) (s : string) :
  py_eq_str v s = true ↔ v = VStr s.
Proof.
  destruct v; simpl; try (split; [discriminate|congruence]).
  rewrite String.eqb_eq. split; congruence.
Qed.

Lemma py_eq_str_false (v : value) (s : string) :
  py_eq_str v s = false ↔ v ≠ VStr s.
Proof.
  rewrite <- py_eq_str_true. destruct (py_eq_str v s); split; congruence.
Qed.

Section VariableTypeParsing.
Variables (w : world) (component : loc) (r : gmap string value).
Variables (cost_dict variable value_curve : gmap string value).
Variables (cls : string) (fs : gset string) (attrs : gmap string value).
Variables (pts : list (value * value)) (variable_type : value).

Hypothesis component_live : heap w !! component = Some r.
Hypothesis has_variable : cost_dict !! "variable" = Some (VDict variable).
Hypothesis has_value_curve :
  variable !! "value_curve" = Some (VDict value_curve).
Hypothesis has_function_data :
  value_curve !! "function_data" = Some (VObj cls fs attrs).
Hypothesis has_points :
  attrs !! "points" = Some (VList (point_tuple <$> pts)).
Hypothesis has_variable_type :
  cost_dict !! "variable_type" = Some variable_type.

(** Up to the dispatch, the function only reads. *)
Lemma variable_type_parsing_unfold :
  _variable_type_parsing component (VDict cost_dict) w
  = (if py_eq_str variable_type "CostCurve" then
       for_enumerate 0 (point_tuple <$> pts) (cost_curve_point component);;
       mret component
     else if py_eq_str variable_type "FuelCurve" then
       for_enumerate 0 (point_tuple <$> pts) (fuel_curve_point component);;
       mret component
     else raise NotImplementedError) w.
Proof.
  unfold _variable_type_parsing, lift, py_getitem, py_getattr.
  rewrite has_variable. unfold mbind at 1, M_bind at 1. cbv beta iota.
  rewrite has_value_curve. unfold mbind at 1, M_bind at 1. cbv beta iota.
  rewrite has_function_data. unfold mbind at 1, M_bind at 1. cbv beta iota.
  rewrite has_points. unfold mbind at 1, M_bind at 1. cbv beta iota.
  rewrite has_variable_type. unfold mbind at 1, M_bind at 1. cbv beta iota.
  destruct (py_eq_str variable_type "CostCurve"); [done|].
  destruct (py_eq_str variable_type "FuelCurve"); done.
Qed.

Lemma curve_loop_run (gcol : nat → string) :
  Inj (=) (=) gcol → (∀ i j, output_point_col i ≠ gcol j) →
  ∃ r' : gmap string value,
    (for_enumerate 0 (point_tuple <$> pts)
       (two_col_point output_point_col gcol component);;
     mret component) w
    = (World (<[component := r']> (heap w)) (files w) (log w), Ok component)
    ∧ ∀ i x y, pts !! i = Some (x, y) →
        r' !! output_point_col i = Some x ∧ r' !! gcol i = Some y.
Proof.
  intros Hg Hfg.
  destruct (two_col_loop output_point_col gcol component
              output_point_col_inj Hg Hfg pts 0%nat w r component_live)
    as (r' & Hrun & Hpts & _).
  exists r'. split; [|exact Hpts].
  by rewrite (bind_ok _ _ _ _ _ Hrun).
Qed.

(** C2. Given value-curve function data with a point list, the translator
    dispatches on [variable_type]: under ["CostCurve"] the component gets
    [output_point_i = x_i] and [cost_point_i = y_i] for every point index
    [i]; under ["FuelCurve"] it gets [output_point_i = x_i] for every [i],
    [heat_rate_avg_0 = y_0], and [heat_rate_incr_i = y_i] for every
    [i > 0]; any other discriminator raises [NotImplementedError] and
    leaves the component as it was. *)
Theorem variable_type_parsing_dispatch :
  let run := _variable_type_parsing component (VDict cost_dict) w in
  (variable_type = VStr "CostCurve" →
     run.2 = Ok component ∧
     ∀ (i : nat) x y, pts !! i = Some (x, y) →
       field run.1 component ("output_point_" +:+ pretty i) = Some x ∧
       field run.1 component ("cost_point_" +:+ pretty i) = Some y) ∧
  (variable_type = VStr "FuelCurve" →
     run.2 = Ok component ∧
     ∀ (i : nat) x y, pts !! i = Some (x, y) →
       field run.1 component ("output_point_" +:+ pretty i) = Some x ∧
       (i = 0%nat → field run.1 component "heat_rate_avg_0" = Some y) ∧
       ((0 < i)%nat →
          field run.1 component ("heat_rate_incr_" +:+ pretty i) = Some y)) ∧
  (variable_type ≠ VStr "CostCurve" → variable_type ≠ VStr "FuelCurve" →
     run = (w, Raise NotImplementedError)).
Proof.
  intros run. unfold run. rewrite variable_type_parsing_unfold.
  split_and!.
  - intros ->. cbn [py_eq_str String.eqb Ascii.eqb Bool.eqb].
    destruct (curve_loop_run cost_point_col cost_point_col_inj
                output_cost_col_ne) as (r' & Hrun & Hpts).
    change (cost_curve_point component)
      with (two_col_point output_point_col cost_point_col component).
    rewrite Hrun. split; [done|]. intros i x y Hi. unfold field. cbn [fst heap].
    rewrite (heap_insert_lookup _ _ _ _ component_live). simpl.
    by apply Hpts.
  - intros ->. cbn [py_eq_str String.eqb Ascii.eqb Bool.eqb].
    destruct (curve_loop_run heat_rate_col heat_rate_col_inj
                output_heat_col_ne) as (r' & Hrun & Hpts).
    change (fuel_curve_point component)
      with (two_col_point output_point_col heat_rate_col component).
    rewrite Hrun. split; [done|]. intros i x y Hi. unfold field. cbn [fst heap].
    rewrite (heap_insert_lookup _ _ _ _ component_live). simpl.
    destruct (Hpts i x y Hi) as [Hx Hy]. split_and!; [done| |].
    + by intros ->.
    + intros Hpos. destruct i; [lia|done].
  - intros H1%py_eq_str_false H2%py_eq_str_false. by rewrite H1, H2.
Qed.

End VariableTypeParsing.

Example cost_curve_example :
  let run := _variable_type_parsing 0%nat (VDict (example_cost_dict "CostCurve"))
               (one_component ∅) in
  run.2 = Ok 0%nat
  ∧ field run.1 0%nat "output_point_0" = Some (VInt 0)
  ∧ field run.1 0%nat "cost_point_0" = Some (VInt 0)
  ∧ field run.1 0%nat "output_point_1" = Some (VInt 50)
  ∧ field run.1 0%nat "cost_point_1" = Some (VInt 1000)
  ∧ field run.1 0%nat "output_point_2" = Some (VInt 100)
  ∧ field run.1 0%nat "cost_point_2" = Some (VInt 2500).
Proof. vm_compute. repeat split. Qed.

Lemma variable_type_parsing_dispatch_witness :
  let run := _variable_type_parsing 0%nat (VDict (example_cost_dict "FuelCurve"))
               (one_component ∅) in
  run.2 = Ok 0%nat
  ∧ field run.1 0%nat "output_point_0" = Some (VInt 0)
  ∧ field run.1 0%nat "heat_rate_avg_0" = Some (VInt 0)
  ∧ field run.1 0%nat "output_point_1" = Some (VInt 50)
  ∧ field run.1 0%nat "heat_rate_incr_1" = Some (VInt 1000)
  ∧ field run.1 0%nat "output_point_2" = Some (VInt 100)
  ∧ field run.1 0%nat "heat_rate_incr_2" = Some (VInt 2500).
Proof.
  intros run.
  destruct (variable_type_parsing_dispatch (one_component ∅) 0%nat ∅
              (example_cost_dict "FuelCurve") example_variable
              example_value_curve "PiecewiseLinearData" {[ "points" ]}
              example_function_data example_points (VStr "FuelCurve")
              eq_refl eq_refl eq_refl eq_refl eq_refl eq_refl)
    as (_ & Hfuel & _).
  destruct (Hfuel eq_refl) as [Hres Hpts].
  destruct (Hpts 0%nat (VInt 0) (VInt 0) eq_refl) as (Hx0 & Hy0 & _).
  destruct (Hpts 1%nat (VInt 50) (VInt 1000) eq_refl) as (Hx1 & _ & Hy1).
  destruct (Hpts 2%nat (VInt 100) (VInt 2500) eq_refl) as (Hx2 & _ & Hy2).
  split_and!.
  - exact Hres.
  - exact Hx0.
  - exact (Hy0 eq_refl).
  - exact Hx1.
  - apply Hy1. lia.
  - exact Hx2.
  - apply Hy2. lia.
Defined.

(** ** Operation cost: the fuel price *)

Section Keeps.
Context (l : loc) (k : string).

Lemma keeps_ret {A} (a : A) : keeps (mret a) l k.
Proof. by intros w. Qed.

Lemma keeps_raise {A} (e : exn) : keeps (raise e : M A) l k.
Proof. by intros w. Qed.

Lemma keeps_lift {A} (x : result A) : keeps (lift x) l k.
Proof. by intros w. Qed.

Lemma keeps_bind {A B} (c : M A) (f : A → M B) :
  keeps c l k → (∀ a, keeps (f a) l k) → keeps (c ≫= f) l k.
Proof.
  intros Hc Hf w. unfold mbind, M_bind.
  specialize (Hc w). destruct (c w) as [w' [a|e]]; simpl in *.
  - by rewrite Hf.
  - done.
Qed.

Lemma keeps_setitem (l' : loc) (k' : string) (v : value) :
  k' ≠ k → keeps (setitem l' k' v) l k.
Proof.
  intros Hne w. unfold setitem, field.
  destruct (heap w !! l') as [r'|] eqn:Hl'; simpl; [|done].
  destruct (decide (l' = l)) as [->|Hl].
  - rewrite list_lookup_insert_eq by (by eapply lookup_lt_Some).
    rewrite Hl'. simpl. by rewrite lookup_insert_ne.
  - by rewrite list_lookup_insert_ne.
Qed.

Lemma keeps_for_enumerate {A} (body : nat → A → M unit) (xs : list A) :
  (∀ i x, keeps (body i x) l k) → ∀ i, keeps (for_enumerate i xs body) l k.
Proof.
  intros Hbody. induction xs as [|x xs IH]; intros i; simpl.
  - apply keeps_ret.
  - apply keeps_bind; [apply Hbody|]. intros _. apply IH.
Qed.
End Keeps.

Lemma keeps_heat_rate_term l k component fd fields term col :
  col ≠ k → keeps (heat_rate_term component fd fields term col) l k.
Proof.
  intros Hne. unfold heat_rate_term. case_bool_decide.
  - apply keeps_bind; [apply keeps_lift|]. intros v. by apply keeps_setitem.
  - apply keeps_ret.
Qed.

Lemma fuel_price_not_output_point i : output_point_col i ≠ "fuel_price".
Proof. unfold output_point_col. simpl. discriminate. Qed.

Lemma fuel_price_not_cost_point i : cost_point_col i ≠ "fuel_price".
Proof. unfold cost_point_col. simpl. discriminate. Qed.

Lemma fuel_price_not_heat_rate i : heat_rate_col i ≠ "fuel_price".
Proof. unfold heat_rate_col. destruct i; simpl; discriminate. Qed.

Lemma keeps_two_col_point l fcol gcol component i xy k :
  fcol i ≠ k → gcol i ≠ k → keeps (two_col_point fcol gcol component i xy) l k.
Proof.
  intros Hf Hg. unfold two_col_point.
  apply keeps_bind; [apply keeps_lift|]. intros [x y].
  apply keeps_bind; [by apply keeps_setitem|]. intros _.
  by apply keeps_setitem.
Qed.

(** The curve columns never collide with [fuel_price]. *)
Lemma keeps_variable_type_parsing l component cost_dict :
  keeps (_variable_type_parsing component cost_dict) l "fuel_price".
Proof.
  unfold _variable_type_parsing.
  do 5 (apply keeps_bind; [apply keeps_lift|intros ?]).
  destruct (py_eq_str _ "CostCurve"); [|destruct (py_eq_str _ "FuelCurve")].
  - apply keeps_bind; [apply keeps_lift|]. intros xs.
    apply keeps_bind; [|intros _; apply keeps_ret].
    apply keeps_for_enumerate. intros i x.
    apply (keeps_two_col_point l output_point_col cost_point_col).
    + apply fuel_price_not_output_point.
    + apply fuel_price_not_cost_point.
  - apply keeps_bind; [apply keeps_lift|]. intros xs.
    apply keeps_bind; [|intros _; apply keeps_ret].
    apply keeps_for_enumerate. intros i x.
    apply (keeps_two_col_point l output_point_col heat_rate_col).
    + apply fuel_price_not_output_point.
    + apply fuel_price_not_heat_rate.
  - apply keeps_raise.
Qed.

Lemma keeps_value_curve_rule l component operation_cost variable :
  keeps (value_curve_rule component operation_cost variable) l "fuel_price".
Proof.
  unfold value_curve_rule.
  destruct (haskey variable _); [|apply keeps_ret].
  do 3 (apply keeps_bind; [apply keeps_lift|intros ?]).
  do 3 (apply keeps_bind; [by apply keeps_heat_rate_term|intros _]).
  case_bool_decide; [apply keeps_variable_type_parsing|apply keeps_ret].
Qed.

Lemma truthy_dict_lookup (d : gmap string value) k v :
  d !! k = Some v → truthy (VDict d) = true.
Proof.
  intros H. simpl. destruct (size d) eqn:Hsize; [|done].
  apply map_size_empty_iff in Hsize. subst d. by rewrite lookup_empty in H.
Qed.

Lemma vom_cost_rule_live w c (r : gmap string value) variable w1 :
  heap w !! c = Some r →
  vom_cost_rule c variable w = (w1, Ok ()) →
  ∃ r1 : gmap string value, heap w1 !! c = Some r1.
Proof.
  intros Hr. unfold vom_cost_rule.
  destruct (haskey variable _).
  - unfold lift, mbind, M_bind.
    destruct (py_getitem variable "vom_cost") as [vom|]; [|done].
    destruct (py_getitem vom "function_data") as [fd|]; [|done].
    destruct (py_getattr fd "proportional_term") as [pt|]; [|done].
    rewrite (setitem_ok _ _ _ _ _ Hr). intros [= <-]. simpl.
    eexists. by eapply heap_insert_lookup.
  - intros [= <-]. eauto.
Qed.

Section FuelCost.
Variables (w : world) (component : loc) (r : gmap string value).
Variables (operation_cost variable : gmap string value) (fuel_cost : value).

Hypothesis component_live : heap w !! component = Some r.
Hypothesis has_operation_cost :
  r !! "operation_cost" = Some (VDict operation_cost).
Hypothesis has_variable :
  operation_cost !! "variable" = Some (VDict variable).
Hypothesis has_fuel_cost : variable !! "fuel_cost" = Some fuel_cost.

(** With a variable-cost object that holds [fuel_cost], neither early
    return is taken: the three rules run in order. *)
Lemma apply_operation_table_data_unfold :
  apply_operation_table_data component w
  = (vom_cost_rule component (VDict variable);;
     fuel_cost_rule component (VDict variable);;
     value_curve_rule component (VDict operation_cost) (VDict variable)) w.
Proof.
  unfold apply_operation_table_data.
  rewrite (bind_ok _ _ _ _ _
             (dict_get_some _ _ _ _ _ _ component_live has_operation_cost)).
  rewrite (truthy_dict_lookup _ _ _ has_variable). cbn [negb].
  unfold py_dict_get, lift. unfold mbind at 1, M_bind at 1. cbv beta iota.
  rewrite has_variable. cbn [default from_option id].
  by rewrite (truthy_dict_lookup _ _ _ has_fuel_cost).
Qed.

Lemma fuel_cost_rule_null w1 :
  fuel_cost = VNone →
  fuel_cost_rule component (VDict variable) w1 = (w1, Raise AssertionError).
Proof.
  intros ->. unfold fuel_cost_rule, py_in_keys, py_getitem, lift.
  unfold mbind, M_bind. rewrite has_fuel_cost.
  by rewrite bool_decide_eq_true_2.
Qed.

Lemma fuel_cost_rule_write w1 (r1 : gmap string value) fuel_price :
  heap w1 !! component = Some r1 →
  py_mul_1000 fuel_cost = Ok fuel_price →
  fuel_cost_rule component (VDict variable) w1
  = (World (<[component := <["fuel_price" := fuel_price]> r1]> (heap w1))
       (files w1) (log w1), Ok ()).
Proof.
  intros Hr1 Hmul. unfold fuel_cost_rule, py_in_keys, py_getitem, lift.
  unfold mbind, M_bind. rewrite has_fuel_cost.
  rewrite bool_decide_eq_true_2 by done.
  assert (is_none fuel_cost = false) as ->
    by (by destruct fuel_cost). simpl.
  rewrite Hmul. by apply setitem_ok.
Qed.

(** C3. When the variable cost data holds the key [fuel_cost], a null
    value makes the translator fail (with [AssertionError], once the
    variable-cost rule before it has run through); any other value that
    can be multiplied is written, times 1000, as [fuel_price], and no
    later rule changes it. *)
Theorem fuel_cost_to_fuel_price :
  let run := apply_operation_table_data component w in
  let vom_ok := (vom_cost_rule component (VDict variable) w).2 = Ok () in
  (fuel_cost = VNone →
     ∃ e, run.2 = Raise e ∧ (vom_ok → e = AssertionError))
  ∧ (vom_ok → ∀ fuel_price, py_mul_1000 fuel_cost = Ok fuel_price →
       field run.1 component "fuel_price" = Some fuel_price).
Proof.
  intros run vom_ok. unfold run, vom_ok.
  rewrite apply_operation_table_data_unfold.
  destruct (vom_cost_rule component (VDict variable) w) as [w1 [[]|e]] eqn:Hvom.
  - destruct (vom_cost_rule_live _ _ _ _ _ component_live Hvom) as [r1 Hr1].
    rewrite (bind_ok _ _ _ _ _ Hvom). split.
    + intros Hnull. exists AssertionError.
      by rewrite (bind_raise _ _ _ _ _ (fuel_cost_rule_null w1 Hnull)).
    + intros _ fuel_price Hmul.
      rewrite (bind_ok _ _ _ _ _ (fuel_cost_rule_write w1 r1 _ Hr1 Hmul)).
      rewrite keeps_value_curve_rule. unfold field. simpl.
      rewrite (heap_insert_lookup _ _ _ _ Hr1). simpl.
      by rewrite lookup_insert_eq.
  - rewrite (bind_raise _ _ _ _ _ Hvom). split.
    + intros _. exists e. split; [done|]. simpl. discriminate.
    + simpl. discriminate.
Qed.

End FuelCost.

Example docstring_example :
  let run := apply_operation_table_data 0%nat
               (one_component (example_component (VFloat float_0_05))) in
  run.2 = Ok 0%nat
  ∧ field run.1 0%nat "variable_cost" = Some (VInt 10)
  ∧ field run.1 0%nat "fuel_price" = Some (VFloat 50)
  ∧ field run.1 0%nat "output_point_1" = Some (VInt 50)
  ∧ field run.1 0%nat "cost_point_1" = Some (VInt 1000).
Proof. vm_compute. repeat split. Qed.

Example null_fuel_cost_example :
  (apply_operation_table_data 0%nat (one_component (example_component VNone))).2
  = Raise AssertionError.
Proof. vm_compute. reflexivity. Qed.

Lemma fuel_cost_to_fuel_price_witness :
  field (apply_operation_table_data 0%nat
           (one_component (example_component (VFloat float_0_05)))).1
    0%nat "fuel_price"
  = Some (VFloat 50).
Proof.
  refine (proj2 (fuel_cost_to_fuel_price
                   (one_component (example_component (VFloat float_0_05)))
                   0%nat (example_component (VFloat float_0_05))
                   (example_operation_cost (VFloat float_0_05))
                   (example_variable_cost (VFloat float_0_05))
                   (VFloat float_0_05)
                   eq_refl eq_refl eq_refl eq_refl) _ (VFloat 50) _).
  - vm_compute. reflexivity.
  - vm_compute. reflexivity.
Defined.

(** ** Storage: head and tail rows *)

Lemma setitem_run h fs lg l (r : gmap string value) k v :
  h !! l = Some r →
  setitem l k v (World h fs lg) = (World (<[l := <[k := v]> r]> h) fs lg, Ok ()).
Proof. intros H. unfold setitem. simpl. by rewrite H. Qed.

Lemma getitem_run h fs lg l (r : gmap string value) k v :
  h !! l = Some r → r !! k = Some v →
  getitem l k (World h fs lg) = (World h fs lg, Ok v).
Proof. intros H Hk. by apply (getitem_ok (World h fs lg) l r). Qed.

Lemma copy_item_run h fs lg l (r : gmap string value) k k' v :
  h !! l = Some r → r !! k' = Some v →
  copy_item l k k' (World h fs lg)
  = (World (<[l := <[k := v]> r]> h) fs lg, Ok ()).
Proof.
  intros H Hk. unfold copy_item.
  rewrite (bind_ok _ _ _ _ _ (getitem_run _ _ _ _ _ _ _ H Hk)).
  by apply setitem_run.
Qed.

Lemma lift_run {A} (x : A) (w : world) : lift (Ok x) w = (w, Ok x).
Proof. done. Qed.

Ltac run_getitem :=
  erewrite bind_ok;
  [|eapply getitem_run; [by apply list_lookup_insert_eq|by simplify_map_eq]];
  cbv beta.

Ltac run_copy_item :=
  erewrite bind_ok;
  [|eapply copy_item_run; [by apply list_lookup_insert_eq|by simplify_map_eq]];
  cbv beta; rewrite list_insert_insert_eq.

Ltac run_setitem :=
  erewrite bind_ok;
  [|eapply setitem_run; by apply list_lookup_insert_eq];
  cbv beta; rewrite list_insert_insert_eq.

Lemma dict_copy_run h fs lg l (r : gmap string value) :
  h !! l = Some r →
  dict_copy l (World h fs lg) = (World (h ++ [r]) fs lg, Ok (length h)).
Proof.
  intros H. unfold dict_copy.
  by rewrite (bind_ok _ _ _ _ _ (deref_ok (World h fs lg) l r H)).
Qed.

Lemma storage_body_run system h fs lg l (r : gmap string value) out :
  h !! l = Some r → storage_ready system r →
  storage_body system l out (World h fs lg)
  = (World (<[l := head_row system r]> h ++ [tail_row system r]) fs lg,
     Ok (out ++ [l; length h])%list).
Proof.
  intros Hl [[s Hname] [a Ha] [p Hp] [rt Hrt] (bus & Hbus & Hres)].
  assert (Hlen : (l < length h)%nat) by (by eapply lookup_lt_Some).
  unfold head_row, tail_row, head_dict, storage_fields, storage_bus_id,
    item, name_of.
  rewrite Hname, Ha, Hp, Hrt, Hbus. cbn [default from_option id].
  unfold storage_body.
  rewrite <- (list_insert_id h l r Hl) at 1.
  do 3 run_copy_item. do 2 run_setitem. run_copy_item. run_getitem.
  set (bus_id := if truthy bus then _ else VNone).
  assert (Hbus_id : ∀ (h' : list (gmap string value)) (r' : gmap string value),
     h' !! l = Some r' → r' !! "bus" = Some bus →
     (if truthy bus
      then label ← getitem l "bus";
           bus_component ← lift (get_component_by_label system label);
           mret (py_getattr_default bus_component "number")
      else mret VNone) (World h' fs lg)
     = (World h' fs lg, Ok bus_id)).
  { intros h' r' Hh' Hr'. unfold bus_id. destruct (truthy bus); [|done].
    destruct Hres as [c Hc]; [done|].
    rewrite (bind_ok _ _ _ _ _ (getitem_run _ _ _ _ _ _ _ Hh' Hr')).
    cbv beta. by rewrite Hc. }
  erewrite bind_ok;
    [|eapply Hbus_id; [by apply list_lookup_insert_eq|by simplify_map_eq]].
  cbv beta. clearbody bus_id. clear Hbus_id.
  run_setitem. run_copy_item. run_getitem.
  cbn [py_add_str].
  rewrite (bind_ok _ _ _ _ _ (lift_run _ _)). cbv beta.
  do 2 run_setitem.
  match goal with |- context [<[l := ?x]> h] => set (d := x) end.
  erewrite bind_ok; [|eapply dict_copy_run; by apply list_lookup_insert_eq].
  cbv beta. rewrite (bind_ok _ _ _ _ _ (lift_run _ _)). cbv beta.
  erewrite bind_ok; [|eapply setitem_run; by apply list_lookup_middle].
  cbv beta. rewrite insert_app_r_alt by done. rewrite Nat.sub_diag. cbn [insert list_insert].
  erewrite bind_ok; last first.
  { eapply setitem_run. rewrite lookup_app_l by (by rewrite length_insert).
    by apply list_lookup_insert_eq. }
  cbv beta. rewrite insert_app_l by (by rewrite length_insert).
  rewrite list_insert_insert_eq, length_insert.
  unfold mret, M_ret. by rewrite <- (assoc_L (++)).
Qed.

Lemma heap_frame_Forall2 (P : gmap string value → Prop)
    (h h1 : list (gmap string value)) (ls : list loc)
    (rs : list (gmap string value)) :
  Forall2 (λ l r, h !! l = Some r ∧ P r) ls rs →
  (∀ l, l ∈ ls → h1 !! l = h !! l) →
  Forall2 (λ l r, h1 !! l = Some r ∧ P r) ls rs.
Proof.
  induction 1 as [|l r ls rs [Hl HP] _ IH]; intros Hsame; constructor.
  - split; [|done]. rewrite Hsame; [done|]. by left.
  - apply IH. intros l' Hl'. apply Hsame. by right.
Qed.

Lemma storage_loop_run system (ls : list loc) :
  ∀ (rs : list (gmap string value)) (h : list (gmap string value)) fs lg
    (out : list loc),
    NoDup ls →
    Forall2 (λ l r, h !! l = Some r ∧ storage_ready system r) ls rs →
    ∃ (h' : list (gmap string value)) (out' : list loc),
      storage_loop system ls out (World h fs lg)
      = (World h' fs lg, Ok (out ++ out')%list)
      ∧ Forall2 (λ l row, h' !! l = Some row) out'
          (rs ≫= storage_rows system)
      ∧ (length h ≤ length h')%nat
      ∧ (∀ l, (l < length h)%nat → l ∉ ls → h' !! l = h !! l).
Proof.
  induction ls as [|l ls IH]; intros rs h fs lg out Hnd Hrs.
  - apply Forall2_nil_inv_l in Hrs as ->. exists h, [].
    split_and!; [|constructor|done|done].
    simpl. unfold mret, M_ret. by rewrite app_nil_r.
  - apply Forall2_cons_inv_l in Hrs as (r & rs' & [Hl Hready] & Hrs & ->).
    apply NoDup_cons in Hnd as [Hnotin Hnd].
    assert (Hlen : (l < length h)%nat) by (by eapply lookup_lt_Some).
    pose proof (storage_body_run system h fs lg l r out Hl Hready) as Hbody.
    set (h1 := (<[l := head_row system r]> h ++ [tail_row system r])%list) in *.
    assert (Hlen1 : length h1 = S (length h)).
    { unfold h1. rewrite length_app, length_insert. simpl. lia. }
    assert (Hframe1 : ∀ l', (l' < length h)%nat → l' ≠ l → h1 !! l' = h !! l').
    { intros l' Hl' Hne. unfold h1.
      rewrite lookup_app_l by (by rewrite length_insert).
      by rewrite list_lookup_insert_ne. }
    destruct (IH rs' h1 fs lg (out ++ [l; length h])%list Hnd)
      as (h' & out' & Hrun & Hrows & Hle & Hframe).
    { eapply heap_frame_Forall2; [exact Hrs|].
      intros l' Hl'. apply Hframe1.
      - apply list_elem_of_lookup in Hl' as [i Hi].
        destruct (Forall2_lookup_l _ _ _ i l' Hrs Hi) as (r' & _ & Hr' & _).
        by eapply lookup_lt_Some.
      - intros ->. done. }
    exists h', ([l; length h] ++ out')%list. split_and!.
    + cbn [storage_loop]. rewrite (bind_ok _ _ _ _ _ Hbody). cbv beta.
      rewrite Hrun. by rewrite <- (assoc_L (++)).
    + cbn [mbind list_bind storage_rows app]. unfold storage_rows.
      simpl. constructor; [|constructor; [|exact Hrows]].
      * rewrite Hframe by (rewrite ?Hlen1; done || lia).
        unfold h1. rewrite lookup_app_l by (by rewrite length_insert).
        by apply list_lookup_insert_eq.
      * rewrite Hframe.
        -- unfold h1. rewrite lookup_app_r by (by rewrite length_insert).
           by rewrite length_insert, Nat.sub_diag.
        -- lia.
        -- intros Hin. apply list_elem_of_lookup in Hin as [i Hi].
           destruct (Forall2_lookup_l _ _ _ i _ Hrs Hi) as (r' & _ & Hr' & _).
           apply lookup_lt_Some in Hr'. lia.
    + lia.
    + intros l' Hl' Hnot. apply not_elem_of_cons in Hnot as [Hne Hnot].
      rewrite Hframe by (done || lia). by apply Hframe1.
Qed.

Lemma mapM_alloc_run (rs : list (gmap string value)) :
  ∀ (h : list (gmap string value)) fs lg,
    mapM alloc rs (World h fs lg)
    = (World (h ++ rs) fs lg, Ok (seq (length h) (length rs))).
Proof.
  induction rs as [|r rs IH]; intros h fs lg.
  - simpl. unfold mret, M_ret. by rewrite app_nil_r.
  - cbn [mapM]. unfold mbind at 1, M_bind at 1, alloc at 1. cbn [heap files log].
    unfold mbind at 1, M_bind at 1. rewrite IH.
    unfold mret, M_ret. rewrite <- (assoc_L (++)). simpl.
    rewrite length_app. simpl. by rewrite Nat.add_1_r.
Qed.

Lemma mapM_deref_run (ls : list loc) (rows : list (gmap string value))
    (h : list (gmap string value)) fs lg :
  Forall2 (λ l row, h !! l = Some row) ls rows →
  mapM deref ls (World h fs lg) = (World h fs lg, Ok rows).
Proof.
  induction 1 as [|l row ls rows Hl _ IH]; [done|].
  cbn [mapM]. rewrite (bind_ok _ _ _ _ _ (deref_ok (World h fs lg) l row Hl)).
  cbv beta. by rewrite (bind_ok _ _ _ _ _ IH).
Qed.

(** When every record is ready, the loop returns two dictionaries per
    record, and the writer reads from them the head and the tail row. *)
Lemma storage_output_data_run system (rs : list (gmap string value)) w :
  Forall (storage_ready system) rs →
  ∃ h' : list (gmap string value),
    storage_output_data system rs w
    = (World h' (files w) (log w), Ok (rs ≫= storage_rows system)).
Proof.
  intros Hready. destruct w as [h fs lg]. unfold storage_output_data.
  rewrite (bind_ok _ _ _ _ _ (mapM_alloc_run rs h fs lg)). cbv beta.
  destruct (storage_loop_run system (seq (length h) (length rs)) rs
              (h ++ rs) fs lg [])
    as (h' & out' & Hrun & Hrows & _ & _).
  { apply NoDup_seq. }
  { apply Forall2_same_length_lookup_2; [by rewrite length_seq|].
    intros i l r Hl Hr. apply lookup_seq in Hl as [-> Hi].
    split.
    - rewrite lookup_app_r by lia. by replace (length h + i - length h)%nat with i by lia.
    - rewrite Forall_lookup in Hready. by eapply Hready. }
  rewrite (bind_ok _ _ _ _ _ Hrun). cbv beta. cbn [app].
  exists h'. by apply mapM_deref_run.
Qed.

Lemma storage_rows_length system (rs : list (gmap string value)) :
  length (rs ≫= storage_rows system) = (2 * length rs)%nat.
Proof.
  induction rs as [|r rs IH]; [done|].
  rewrite bind_cons, length_app, IH. simpl. lia.
Qed.

(** C10. Every row that [process_storage_data] hands to the writer, head
    and tail alike, has [input_active_power_limit_min] and
    [output_active_power_limit_min] equal to the constant 0, whatever the
    component's own data: for records that the loop can process (they have a
    string name, the fields the loop reads, and a bus that resolves), the
    loop returns, with two rows per record, and every row has the two
    zeros. *)
Theorem storage_limit_min_zero (system : System)
    (storage_list : list (gmap string value)) (w : world) :
  Forall (storage_ready system) storage_list →
  ∃ rows : list (gmap string value),
    (storage_output_data system storage_list w).2 = Ok rows
    ∧ length rows = (2 * length storage_list)%nat
    ∧ Forall (λ row : gmap string value,
                row !! "input_active_power_limit_min" = Some (VInt 0)
                ∧ row !! "output_active_power_limit_min" = Some (VInt 0)) rows.
Proof.
  intros Hready.
  destruct (storage_output_data_run system storage_list w Hready) as [h' Hrun].
  exists (storage_list ≫= storage_rows system). rewrite Hrun.
  split_and!; [done|apply storage_rows_length|].
  apply Forall_forall. intros row Hin.
  apply list_elem_of_bind in Hin as (r & Hrow & _).
  unfold storage_rows in Hrow.
  apply elem_of_cons in Hrow as [->|Hrow];
    [|apply list_elem_of_singleton in Hrow as ->];
    unfold head_row, tail_row, head_dict, storage_fields;
    by simplify_map_eq.
Qed.

(** What the two rows of a storage record named [X] hold: the dictionary
    appended first is named [X_head] and ends with position ["tail"], the
    copy is named [X_tail] and keeps position ["head"]; they agree on every
    other field. *)
Lemma storage_rows_fields system (r : gmap string value) (X : string) :
  r !! "name" = Some (VStr X) →
  head_row system r !! "name" = Some (VStr (X +:+ "_head"))
  ∧ head_row system r !! "position" = Some (VStr "tail")
  ∧ tail_row system r !! "name" = Some (VStr (X +:+ "_tail"))
  ∧ tail_row system r !! "position" = Some (VStr "head")
  ∧ ∀ k, k ≠ "name" → k ≠ "position" →
      head_row system r !! k = tail_row system r !! k.
Proof.
  intros Hname. unfold head_row, tail_row, head_dict, name_of.
  rewrite Hname. split_and!; try by simplify_map_eq.
  intros k Hk1 Hk2. by rewrite !lookup_insert_ne.
Qed.

(** C1. For the storage component named ["X"] the loop produces exactly two
    rows, named ["X_head"] and ["X_tail"]; but the row named ["X_head"] is
    written with position ["tail"] and the row named ["X_tail"] with
    position ["head"]: line 474 sets the position of [output_dict] (the head
    dictionary, already appended) where it means [tail_copy]. *)
Theorem storage_head_tail_positions :
  ∃ head tail : gmap string value,
    (storage_output_data example_system [example_storage] empty_world).2
    = Ok [head; tail]
    ∧ head !! "name" = Some (VStr "X_head")
    ∧ head !! "position" = Some (VStr "tail")
    ∧ tail !! "name" = Some (VStr "X_tail")
    ∧ tail !! "position" = Some (VStr "head")
    ∧ ∀ k, k ≠ "name" → k ≠ "position" → head !! k = tail !! k.
Proof.
  exists (head_row example_system example_storage),
         (tail_row example_system example_storage).
  destruct (storage_rows_fields example_system example_storage "X" eq_refl)
    as (H1 & H2 & H3 & H4 & H5).
  split_and!; [vm_compute; reflexivity|done..].
Qed.

(** ** The result monad *)

Lemma result_bind_ok {A B} (a : A) (f : A → result B) : Ok a ≫= f = f a.
Proof. done. Qed.

Lemma result_bind_raise {A B} (e : exn) (f : A → result B) :
  Raise e ≫= f = Raise e.
Proof. done. Qed.

Lemma result_bind_inv {A B} (x : result A) (f : A → result B) (b : B) :
  x ≫= f = Ok b → ∃ a, x = Ok a ∧ f a = Ok b.
Proof. destruct x as [a|e]; [|done]. intros H. by exists a. Qed.

Lemma mapM_Ok {A B} (f : A → result B) (l : list A) (k : list B) :
  mapM f l = Ok k ↔ Forall2 (λ x y, f x = Ok y) l k.
Proof.
  revert k. induction l as [|x l IH]; intros k.
  - split; [intros [= <-]; constructor|]. intros ->%Forall2_nil_inv_l. done.
  - simpl. split.
    + destruct (f x) as [y|] eqn:Hx; [|done]. rewrite result_bind_ok.
      destruct (mapM f l) as [k'|] eqn:Hl; [|done]. rewrite result_bind_ok.
      intros [= <-]. constructor; [done|]. by apply IH.
    + intros (y & k' & Hx & Hl & ->)%Forall2_cons_inv_l.
      rewrite Hx, result_bind_ok. apply IH in Hl. by rewrite Hl.
Qed.

Lemma Forall2_compose {A B C} (P : A → B → Prop) (Q : B → C → Prop)
    (R : A → C → Prop) (l : list A) (k : list B) (m : list C) :
  (∀ x y z, P x y → Q y z → R x z) →
  Forall2 P l k → Forall2 Q k m → Forall2 R l m.
Proof.
  intros H HP. revert m.
  induction HP as [|x y l k Hxy _ IH]; intros m HQ.
  - apply Forall2_nil_inv_l in HQ as ->. constructor.
  - apply Forall2_cons_inv_l in HQ as (z & m' & Hyz & HQ & ->).
    constructor; eauto.
Qed.

(** ** Reserves *)

Section Reserves.
Context (ext : Collaborators).

Lemma reserve_output_dict_in_map (m : gmap string value)
    (r : gmap string value) (appended : option (gmap string value)) :
  reserve_output_dict ext (VDict m) r = Ok appended →
  reserve_in_map m r = bool_decide (is_Some appended).
Proof.
  unfold reserve_output_dict, reserve_in_map. intros Hrun.
  apply result_bind_inv in Hrun as (name & Hname & Hrun).
  apply result_bind_inv in Hrun as (present & Hpresent & Hrun).
  unfold record_getitem in Hname.
  destruct (r !! "name") as [name'|]; [|done]. injection Hname as ->.
  assert (Hthen : present = true → is_Some appended).
  { intros ->.
    do 5 (apply result_bind_inv in Hrun as (? & _ & Hrun)).
    injection Hrun as <-. by eexists. }
  assert (Helse : present = false → appended = None).
  { intros ->. by injection Hrun as <-. }
  destruct name; simpl in Hpresent; try done;
    try (injection Hpresent as <-; rewrite Helse by done;
         by rewrite bool_decide_eq_false_2 by (by intros [? ?])).
  injection Hpresent as <-. case_bool_decide.
  - by rewrite bool_decide_eq_true_2 by auto.
  - rewrite Helse by done. by rewrite bool_decide_eq_false_2 by (by intros [? ?]).
Qed.

(** The dictionaries appended by the loop are those of the reserves whose
    name is a key of the map, in order. *)
Lemma reserves_loop_filter (m : gmap string value)
    (reserves : list (gmap string value)) :
  ∀ output_data output_data' : list (gmap string value),
    reserves_loop ext (VDict m) reserves output_data = Ok output_data' →
    ∃ appended : list (gmap string value),
      output_data' = (output_data ++ appended)%list
      ∧ Forall2 (λ r out, reserve_output_dict ext (VDict m) r = Ok (Some out))
          (filter (λ r, reserve_in_map m r = true) reserves) appended.
Proof.
  induction reserves as [|r reserves IH]; intros out out' Hrun.
  - injection Hrun as <-. exists []. by rewrite app_nil_r.
  - cbn [reserves_loop] in Hrun.
    apply result_bind_inv in Hrun as (appended & Hr & Hrun).
    pose proof (reserve_output_dict_in_map m r appended Hr) as Hin.
    apply IH in Hrun as (rest & -> & Hrest).
    rewrite filter_cons. destruct appended as [o|].
    + rewrite bool_decide_eq_true_2 in Hin by eauto.
      rewrite decide_True by done.
      exists (o :: rest). split; [by rewrite <- (assoc_L (++))|].
      by constructor.
    + rewrite bool_decide_eq_false_2 in Hin by (by intros [? ?]).
      rewrite decide_False by (by rewrite Hin).
      by exists rest.
Qed.

(** C4. With a single reserve map, the rows of [reserves.csv] are those of
    the reserves whose name is a key of the map, one row each and in order:
    a reserve whose name is not a key gives no row (and when the function
    raises before writing, no file is written at all).  With no reserve map,
    or more than one, the function writes no file, logs a warning and
    returns normally. *)
Theorem reserves_from_single_map (self : SiennaExporter) (fname : string)
    (w : world) (maps : list value) :
  mapM (λ component, record_getitem component "mapping")
    (to_records (exporter_system self) ReserveMap) = Ok maps →
  let run := process_reserves_data ext self fname w in
  let fpath := path_join (exporter_output_folder self) fname in
  (maps = [] →
     run = (World (heap w) (files w) (log w ++ [(WARNING, no_reserve_map_msg)]),
            Ok ()))
  ∧ ((1 < length maps)%nat →
     run = (World (heap w) (files w)
              (log w ++ [(WARNING, multiple_reserve_maps_msg)]), Ok ()))
  ∧ (∀ m : gmap string value, maps = [VDict m] →
     (files run.1 = files w ∧ ∃ e, run.2 = Raise e)
     ∨ ∃ rows : list (list value),
         run.2 = Ok ()
         ∧ files run.1 = <[fpath := CsvFile reserves_output_fields rows]> (files w)
         ∧ Forall2 (reserve_row ext self m)
             (filter (λ r, reserve_in_map m r = true)
                (to_records (exporter_system self) Reserve))
             rows).
Proof.
  intros Hmaps run fpath.
  assert (Hrun : run = (match maps with
                        | [] => logger WARNING no_reserve_map_msg
                        | [reserve_map] =>
                            output_data ← lift (reserves_loop ext reserve_map
                              (to_records (exporter_system self) Reserve) []);
                            export_records ← lift (get_export_records output_data
                              (reserve_stages ext self));
                            _export_dict_to_csv ext export_records fpath
                              reserves_output_fields "NA" None None;;
                            logger INFO ("File " +:+ fname +:+ " created.")
                        | _ :: _ :: _ => logger WARNING multiple_reserve_maps_msg
                        end) w).
  { unfold run, process_reserves_data. by rewrite Hmaps. }
  rewrite Hrun. clear Hrun. split_and!.
  - by intros ->.
  - intros Hlen. destruct maps as [|? [|? ?]]; simpl in Hlen; [lia..|done].
  - intros m ->. unfold lift, mbind, M_bind.
    destruct (reserves_loop ext (VDict m)
                (to_records (exporter_system self) Reserve) [])
      as [output_data|e] eqn:Hloop;
      [|left; split; [done|by exists e]].
    destruct (get_export_records output_data
                (reserve_stages ext self))
      as [export_records|e] eqn:Hexp;
      [|left; split; [done|by exists e]].
    right. eexists. split_and!; [done|done|].
    apply reserves_loop_filter in Hloop as (appended & -> & Happ).
    apply mapM_Ok in Hexp. rewrite app_nil_l in Hexp.
    apply Forall2_fmap_r.
    eapply Forall2_compose; [| exact Happ | exact Hexp].
    intros r out e Hr He. by exists out, e.
Qed.
End Reserves.

(** ** AC branches *)

Lemma get_export_properties_raise (stages : list stage) (e : exn) :
  foldl (λ (acc : result (gmap string value)) (func : stage), acc ≫= func)
    (Raise e) stages = Raise e.
Proof. induction stages as [|f stages IH]; [done|]. simpl. exact IH. Qed.

Lemma get_export_properties_app (stages1 stages2 : list stage)
    (r r1 : gmap string value) :
  get_export_properties stages1 r = Ok r1 →
  get_export_properties (stages1 ++ stages2) r
  = get_export_properties stages2 r1.
Proof.
  unfold get_export_properties. intros H. by rewrite foldl_app, H.
Qed.

Section Branch.
Context (ext : Collaborators).

(** C5. For an AC branch record that has gone through the renaming, unit
    and unnesting stages, the two remaining stages complete;
    [is_transformer] is [True] exactly when the branch's class name (the
    field [class_type], renamed to [branch_type]) equals
    [Transformer2W.__name__], and [False] for every other branch;
    [tap] is set to [1.0] when it is absent (or null), and a tap value that
    is present is kept unchanged. *)
Theorem branch_is_transformer_and_tap (self : SiennaExporter)
    (r r1 : gmap string value) (branch_type : value) :
  get_export_properties
    (branch_first_stages ext self) r = Ok r1 →
  r1 !! "branch_type" = Some branch_type →
  ∃ row : gmap string value,
    get_export_properties
      (branch_stages ext self) r = Ok row
    ∧ (branch_type = VStr Transformer2W_name →
         row !! "is_transformer" = Some (VBool true))
    ∧ (branch_type ≠ VStr Transformer2W_name →
         row !! "is_transformer" = Some (VBool false))
    ∧ (r1 !! "tap" = None ∨ r1 !! "tap" = Some VNone →
         row !! "tap" = Some (VFloat 1))
    ∧ (∀ tap, r1 !! "tap" = Some tap → tap ≠ VNone → row !! "tap" = Some tap).
Proof.
  intros Hfirst Hbt. unfold branch_stages.
  rewrite (get_export_properties_app _ _ _ _ Hfirst).
  unfold get_export_properties. cbn [foldl].
  rewrite result_bind_ok. unfold set_is_transformer at 1, record_getitem.
  rewrite Hbt, result_bind_ok, result_bind_ok.
  unfold apply_default_value. cbn [foldl].
  set (r2 := <["is_transformer" := _]> r1).
  assert (Htap : r2 !! "tap" = r1 !! "tap") by (by apply lookup_insert_ne).
  assert (His : ∀ b, py_eq_str branch_type Transformer2W_name = b →
                    fill_default r2 ("tap", VFloat 1) !! "is_transformer"
                    = Some (VBool b)).
  { intros b Hb. subst b. unfold fill_default. cbn [fst snd].
    destruct (r2 !! "tap") as [v|]; [destruct (is_none v)|];
      rewrite ?lookup_insert_ne by done; by apply lookup_insert_eq. }
  eexists. split_and!; [done| | | |].
  - intros Heq. apply His. by apply py_eq_str_true.
  - intros Hne. apply His. by apply py_eq_str_false.
  - unfold fill_default. cbn [fst snd]. rewrite Htap.
    intros [->| ->]; cbn [is_none]; by apply lookup_insert_eq.
  - intros tap Hsome Hnone. unfold fill_default. cbn [fst snd].
    rewrite Htap, Hsome. destruct tap; cbn [is_none]; try done;
      by rewrite Htap.
Qed.
End Branch.

(** ** The constructor *)

Lemma raises_intro {A} (e : exn) : ∃ e', (Raise e : result A) = Raise e'.
Proof. by exists e. Qed.

Section Init.
Context (ext : Collaborators).

(** C6 (amended). The constructor never writes a file, whether it raises or
    returns.  It raises [TypeError] when the output configuration is not a
    [SiennaConfig] and [NotImplementedError] when the input configuration is
    a [ReEDSConfig] whose [solve_year] is a list; it also raises when the
    output or the input configuration is missing, when the conversion to the
    Sienna configuration fails, when the defaults have no [table_data] and
    when no year is found; and it raises in no other case. *)
Theorem init_raises_before_any_output (config : Scenario) (system : System)
    (output_folder : string) (w : world) :
  let run := __init__ ext config system output_folder w in
  run.1 = w
  ∧ (∀ oc ic, output_config config = Some oc → input_config config = Some ic →
       (is_sienna_config oc = false → run.2 = Raise TypeError)
       ∧ (is_sienna_config oc = true → is_reeds_config ic = true →
          solve_year_is_list ic = true → run.2 = Raise NotImplementedError))
  ∧ ((∃ e, run.2 = Raise e) ↔
       output_config config = None
       ∨ input_config config = None
       ∨ ∃ oc ic, output_config config = Some oc ∧ input_config config = Some ic
           ∧ (is_sienna_config oc = false
              ∨ (is_reeds_config ic = true ∧ solve_year_is_list ic = true)
              ∨ (∃ e, ext_to_class ext ic oc = Raise e)
              ∨ ∃ oc', ext_to_class ext ic oc = Ok oc'
                  ∧ (table_data (defaults oc') = None ∨ ext_get_year ext oc' = None))).
Proof.
  intros run. unfold run, __init__, assert_some, lift, raise, mbind, M_bind,
    mret, M_ret.
  destruct (output_config config) as [oc|]; cbn [fst snd].
  2:{ split_and!; [done|done|]. split; [auto|]. intros _. apply raises_intro. }
  destruct (input_config config) as [ic|]; cbn [fst snd].
  2:{ split_and!; [done|done|]. split; [auto|]. intros _. apply raises_intro. }
  destruct (is_sienna_config oc) eqn:Hs; cbn [negb].
  2:{ split_and!; [done| |].
      - intros ? ? [= <-] [= <-]. split; [done|]. by rewrite Hs.
      - split; [|intros _; apply raises_intro].
        intros _. right. right. exists oc, ic. auto. }
  destruct (is_reeds_config ic && solve_year_is_list ic) eqn:Hr.
  { apply andb_true_iff in Hr as [Hr1 Hr2]. split_and!; [done| |].
    - intros ? ? [= <-] [= <-]. split; [by rewrite Hs|done].
    - split; [|intros _; apply raises_intro].
      intros _. right. right. exists oc, ic. split_and!; [done..|].
      right. left. done. }
  assert (Hnot : ¬ (is_reeds_config ic = true ∧ solve_year_is_list ic = true)).
  { intros [H1 H2]. by rewrite H1, H2 in Hr. }
  assert (Hfirst : ∀ oc0 ic0 (x : result SiennaExporter),
            Some oc = Some oc0 → Some ic = Some ic0 →
            (is_sienna_config oc0 = false → x = Raise TypeError)
            ∧ (is_sienna_config oc0 = true → is_reeds_config ic0 = true →
               solve_year_is_list ic0 = true → x = Raise NotImplementedError)).
  { intros ? ? x [= <-] [= <-]. split; [by rewrite Hs|]. intros _ H1 H2.
    by destruct Hnot. }
  destruct (ext_to_class ext ic oc) as [oc'|e] eqn:Hto; cbn [fst snd].
  2:{ split_and!; [done|(intros oc0 ic0; apply Hfirst)|]. split; [|intros _; apply raises_intro].
      intros _. right. right. exists oc, ic. split_and!; [done..|].
      right. right. left. by exists e. }
  destruct (table_data (defaults oc')) as [t|] eqn:Ht; cbn [fst snd].
  2:{ split_and!; [done|(intros oc0 ic0; apply Hfirst)|]. split; [|intros _; apply raises_intro].
      intros _. right. right. exists oc, ic. split_and!; [done..|].
      right. right. right. exists oc'. auto. }
  destruct (ext_get_year ext oc') as [y|] eqn:Hy; cbn [fst snd].
  2:{ split_and!; [done|(intros oc0 ic0; apply Hfirst)|]. split; [|intros _; apply raises_intro].
      intros _. right. right. exists oc, ic. split_and!; [done..|].
      right. right. right. exists oc'. auto. }
  split_and!; [done|(intros oc0 ic0; apply Hfirst)|]. split; [by intros [e ?]|].
  intros [?|[?|(oc0 & ic0 & [= <-] & [= <-] & H)]]; [done..|].
  destruct H as [H|[H|[[e H]|(oc0 & H & [H'|H'])]]].
  - by rewrite Hs in H.
  - by destruct Hnot.
  - by rewrite Hto in H.
  - rewrite Hto in H. injection H as <-. by rewrite Ht in H'.
  - rewrite Hto in H. injection H as <-. by rewrite Hy in H'.
Qed.
End Init.

(** C6 as stated fails: with a Sienna output configuration and no input
    configuration, the constructor raises although the output configuration
    has the right type and no list of solve years is requested. *)
Lemma init_raises_on_missing_input :
  ¬ ((∃ e, (__init__ example_ext scenario_without_input
              empty_system "out" empty_world).2 = Raise e)
     ↔ wrong_output_type scenario_without_input
       ∨ multiple_solve_years scenario_without_input).
Proof.
  intros [Hraise _].
  destruct Hraise as [(c & Hc & Hs)|(c & ys & Hc & _)].
  - by exists AssertionError.
  - injection Hc as <-. discriminate Hs.
  - discriminate Hc.
Qed.

(** ** Generators: the descending sort *)

Lemma ltb_false_ge (x y : string) : String.ltb x y = false → name_ge x y.
Proof.
  unfold String.ltb, name_ge, String.leb.
  rewrite (String.compare_antisym y x).
  by destruct (String.compare x y).
Qed.

Lemma ltb_true_ge (x y : string) : String.ltb x y = true → name_ge y x.
Proof.
  unfold String.ltb, name_ge, String.leb. by destruct (String.compare x y).
Qed.

Lemma name_ge_trans (a b c : string) : name_ge a b → name_ge b c → name_ge a c.
Proof.
  unfold name_ge, String.leb.
  destruct (String.compare b a) eqn:Hba;
    destruct (String.compare c b) eqn:Hcb; try done; intros _ _.
  - apply String.compare_eq_iff in Hba, Hcb. subst.
    by rewrite (proj2 (String_as_OT.cmp_eq _ _) eq_refl).
  - apply String.compare_eq_iff in Hba. subst. by rewrite Hcb.
  - apply String.compare_eq_iff in Hcb. subst. by rewrite Hba.
  - apply String_as_OT.cmp_lt in Hba, Hcb.
    pose proof (String_as_OT.lt_trans _ _ _ Hcb Hba) as H.
    apply String_as_OT.cmp_lt in H. unfold String_as_OT.cmp in H.
    by rewrite H.
Qed.

Section SortDesc.
Context {A : Type}.
Implicit Types (x : string * A) (l : list (string * A)).

Lemma insert_desc_perm x l : insert_desc x l ≡ₚ x :: l.
Proof.
  induction l as [|y l IH]; simpl; [done|].
  destruct (String.ltb x.1 y.1); [|done].
  rewrite IH. apply Permutation_swap.
Qed.

Lemma sort_desc_perm l : sort_desc l ≡ₚ l.
Proof.
  induction l as [|x l IH]; simpl; [done|].
  fold (sort_desc l). by rewrite insert_desc_perm, IH.
Qed.

Lemma insert_desc_sorted x l :
  StronglySorted key_ge l → StronglySorted key_ge (insert_desc x l).
Proof.
  induction 1 as [|y l Hl IH Hy]; simpl.
  - repeat constructor.
  - destruct (String.ltb x.1 y.1) eqn:Hlt.
    + constructor; [done|].
      rewrite insert_desc_perm. constructor; [|done].
      by apply ltb_true_ge.
    + apply ltb_false_ge in Hlt. constructor; [by constructor|].
      constructor; [done|].
      eapply Forall_impl; [exact Hy|]. intros z Hz.
      by eapply name_ge_trans.
Qed.

Lemma sort_desc_sorted l : StronglySorted key_ge (sort_desc l).
Proof.
  induction l as [|x l IH]; simpl; [constructor|].
  by apply insert_desc_sorted.
Qed.
End SortDesc.

Lemma name_key_ok (r : gmap string value) (s : string) :
  r !! "name" = Some (VStr s) → name_key r = Ok s ∧ name_of r = s.
Proof.
  intros H. unfold name_key, record_getitem, name_of. by rewrite H.
Qed.

Lemma sorted_by_keys (l : list (string * gmap string value)) :
  StronglySorted key_ge l →
  Forall (λ p, p.1 = name_of p.2) l →
  StronglySorted (λ a b, name_ge (name_of a) (name_of b)) (l.*2).
Proof.
  induction 1 as [|p l Hl IH Hp]; intros Hkeys; [constructor|].
  apply Forall_cons in Hkeys as [Hk Hkeys].
  rewrite fmap_cons. constructor; [by apply IH|].
  apply Forall_fmap. apply Forall_forall. intros q Hq. simpl.
  rewrite Forall_forall in Hp, Hkeys.
  specialize (Hp q Hq). unfold key_ge in Hp.
  by rewrite <- Hk, <- (Hkeys q Hq).
Qed.

Section Generators.
Context (ext : Collaborators).

(** C7. The generator export records, whatever they are, are sorted by
    name in descending order before they are written: when every record has
    a string name the sort returns a permutation of the records in which
    every record comes before the records of smaller or equal name, and the
    rows of [gen.csv] are the rows of that list, in that order. *)
Theorem generators_sorted_descending (self : SiennaExporter) (fname : string)
    (export_records : list (gmap string value)) (names : list string)
    (w : world) :
  Forall2 (λ r s, r !! "name" = Some (VStr s)) export_records names →
  ∃ sorted_records : list (gmap string value),
    sorted_by_name_reverse export_records = Ok sorted_records
    ∧ sorted_records ≡ₚ export_records
    ∧ StronglySorted
        (λ a b, String.leb (name_of b) (name_of a) = true) sorted_records
    ∧ ∀ fields, output_fields self !! "generator" = Some fields →
        write_generators ext self fname export_records w
        = (World (heap w)
             (<[path_join (exporter_output_folder self) fname :=
                  CsvFile fields
                    (csv_row fields "NA" ∘ ext_writer_view ext None None
                       <$> sorted_records)]> (files w))
             (log w ++ [(INFO, "File " +:+ fname +:+ " created.")]),
           Ok ()).
Proof.
  intros Hnames.
  assert (Hkeys : mapM name_key export_records = Ok names).
  { apply mapM_Ok. eapply Forall2_impl; [exact Hnames|].
    intros r s Hr. by apply name_key_ok. }
  assert (Hlen : length export_records = length names)
    by (by eapply Forall2_length).
  set (sorted := (sort_desc (zip names export_records)).*2).
  assert (Hsort : sorted_by_name_reverse export_records = Ok sorted).
  { unfold sorted_by_name_reverse. by rewrite Hkeys. }
  exists sorted. split_and!; [done| | |].
  - unfold sorted. rewrite sort_desc_perm. rewrite snd_zip by lia. done.
  - apply sorted_by_keys; [apply sort_desc_sorted|].
    rewrite sort_desc_perm. apply Forall_forall. intros [s r] Hin.
    apply list_elem_of_lookup in Hin as [i Hi].
    apply lookup_zip_with_Some in Hi as (s' & r' & [= -> ->] & Hs & Hr).
    pose proof (Forall2_lookup_lr _ _ _ _ _ _ Hnames Hr Hs) as Hname.
    simpl. by destruct (name_key_ok _ _ Hname) as [_ ->].
  - intros fields Hfields. unfold write_generators.
    rewrite Hsort, Hfields. done.
Qed.
End Generators.

(** ** Every table: schema and placeholder *)

Section KeepsFiles.
Lemma keeps_files_ret {A} (a : A) : keeps_files (mret a).
Proof. by intros w. Qed.

Lemma keeps_files_lift {A} (x : result A) : keeps_files (lift x).
Proof. by intros w. Qed.

Lemma keeps_files_bind {A B} (c : M A) (f : A → M B) :
  keeps_files c → (∀ a, keeps_files (f a)) → keeps_files (c ≫= f).
Proof.
  intros Hc Hf w. unfold mbind, M_bind. specialize (Hc w).
  destruct (c w) as [w' [a|e]]; simpl in *; [|done]. by rewrite Hf.
Qed.

Lemma keeps_files_alloc r : keeps_files (alloc r).
Proof. by intros w. Qed.

Lemma keeps_files_deref l : keeps_files (deref l).
Proof. intros w. unfold deref. by destruct (heap w !! l). Qed.

Lemma keeps_files_setitem l k v : keeps_files (setitem l k v).
Proof. intros w. unfold setitem. by destruct (heap w !! l). Qed.

Lemma keeps_files_getitem l k : keeps_files (getitem l k).
Proof.
  apply keeps_files_bind; [apply keeps_files_deref|].
  intros r. by destruct (r !! k).
Qed.

Lemma keeps_files_logger lv msg : keeps_files (logger lv msg).
Proof. by intros w. Qed.

Lemma keeps_files_mapM {A B} (f : A → M B) (l : list A) :
  (∀ a, keeps_files (f a)) → keeps_files (mapM f l).
Proof.
  intros Hf. induction l as [|x l IH]; [apply keeps_files_ret|].
  cbn [mapM]. apply keeps_files_bind; [apply Hf|]. intros y.
  apply keeps_files_bind; [apply IH|]. intros ys. apply keeps_files_ret.
Qed.
End KeepsFiles.

Create HintDb keeps_files.
#[local] Hint Resolve keeps_files_ret keeps_files_lift keeps_files_alloc
  keeps_files_deref keeps_files_setitem keeps_files_getitem
  keeps_files_logger : keeps_files.

Ltac keeps_files_step :=
  first [ solve [auto with keeps_files]
        | match goal with
          | |- keeps_files (if ?b then _ else _) => destruct b
          end
        | apply keeps_files_bind; [|intros ?] ].

Lemma keeps_files_storage_body system storage out :
  keeps_files (storage_body system storage out).
Proof.
  unfold storage_body, copy_item, dict_copy.
  repeat keeps_files_step.
Qed.

Lemma keeps_files_storage_loop system storage_list :
  ∀ out, keeps_files (storage_loop system storage_list out).
Proof.
  induction storage_list as [|l ls IH]; intros out; simpl.
  - apply keeps_files_ret.
  - apply keeps_files_bind; [apply keeps_files_storage_body|]. intros ?. apply IH.
Qed.

Lemma keeps_files_storage_output_data system storage_list :
  keeps_files (storage_output_data system storage_list).
Proof.
  unfold storage_output_data.
  apply keeps_files_bind; [apply keeps_files_mapM, keeps_files_alloc|].
  intros ?. apply keeps_files_bind; [apply keeps_files_storage_loop|].
  intros ?. apply keeps_files_mapM, keeps_files_deref.
Qed.

Lemma csv_row_of fields restval (r : gmap string value) :
  row_of fields restval r (csv_row fields restval r).
Proof.
  unfold csv_row. split; [by rewrite length_fmap|].
  intros i f Hi. rewrite list_lookup_fmap, Hi. simpl.
  by destruct (r !! f).
Qed.

(** A row is determined by its record: an absent field reads as the
    placeholder and as nothing else. *)
Lemma row_of_absent fields restval (r : gmap string value) row i f :
  row_of fields restval r row → fields !! i = Some f → r !! f = None →
  row !! i = Some (VStr restval).
Proof. intros [_ H] Hi Hf. rewrite (H i f Hi). by rewrite Hf. Qed.

Lemma row_of_present fields restval (r : gmap string value) row i f v :
  row_of fields restval r row → fields !! i = Some f → r !! f = Some v →
  row !! i = Some v.
Proof. intros [_ H] Hi Hf. rewrite (H i f Hi). by rewrite Hf. Qed.

Lemma csv_rows_of fields restval (view : gmap string value → gmap string value)
    (data : list (gmap string value)) :
  Forall2 (λ r row, row_of fields restval (view r) row) data
    (csv_row fields restval ∘ view <$> data).
Proof.
  apply Forall2_fmap_r, Forall_Forall2_diag, Forall_forall.
  intros r _. apply csv_row_of.
Qed.

Section Tables.
Context (ext : Collaborators).

(** What a procedure of the shape "pipeline, then writer, then log" does. *)
Lemma pipeline_then_write (pipeline : result (list (gmap string value)))
    fpath fields restval key_mapping unnest_key lv msg (w : world) :
  let run := (export_records ← lift pipeline;
              _export_dict_to_csv ext export_records fpath fields restval
                key_mapping unnest_key;;
              logger lv msg) w in
  (∀ data, pipeline = Ok data →
     run.2 = Ok ()
     ∧ files run.1
       = <[fpath := CsvFile fields
             (csv_row fields restval ∘ ext_writer_view ext key_mapping unnest_key
                <$> data)]> (files w))
  ∧ ((∀ data, pipeline ≠ Ok data) → files run.1 = files w).
Proof.
  destruct pipeline as [data|e]; cbn; split.
  - by intros ? [= <-].
  - intros H. by destruct (H data).
  - by intros.
  - done.
Qed.

(** C8. Every row written for an entity table holds every field of the
    table's schema, with the table's placeholder in place of any field that
    the exported record lacks: ["0.0"] for the load table, ["NA"] for every
    other table.  When the pipeline of the table hands records to the
    writer, the procedure returns and the table is written with one row per
    record, in order; the row has one cell per field of the schema, and the
    cell is the record's value for the field or, when the record has none,
    the placeholder.  When no records are handed over, no file is written. *)
Theorem every_row_has_every_field (t : table) (self : SiennaExporter)
    (fname : string) (w : world) :
  let run := process_table ext t self fname w in
  let fields := schema self t in
  (∀ data, handed_to_writer ext t self w data →
     ∃ rows : list (list value),
       run.2 = Ok ()
       ∧ files run.1
         = <[path_join (exporter_output_folder self) fname :=
               CsvFile fields rows]> (files w)
       ∧ Forall2 (λ r row,
                    row_of fields (placeholder t) (table_view ext t self r) row)
           data rows)
  ∧ ((∀ data, ¬ handed_to_writer ext t self w data) → files run.1 = files w).
Proof.
  intros run fields. unfold run, fields. clear run fields.
  destruct t; cbn [process_table schema placeholder table_view handed_to_writer].
  - (* bus *)
    unfold process_bus_data. fold (bus_stages ext self).
    destruct (get_export_records (model_dump (exporter_system self) Bus)
                (bus_stages ext self)) as [data|e]; cbn; split.
    + intros ? [= <-]. eexists. split_and!; [done..|]. apply csv_rows_of.
    + intros H. by destruct (H data).
    + by intros.
    + done.
  - (* load *)
    unfold process_load_data. fold (load_stages ext self).
    destruct (get_export_records (model_dump (exporter_system self) PowerLoad)
                (load_stages ext self)) as [data|e]; cbn; split.
    + intros ? [= <-]. eexists. split_and!; [done..|]. apply csv_rows_of.
    + intros H. by destruct (H data).
    + by intros.
    + done.
  - (* branch *)
    unfold process_branch_data.
    destruct (get_export_records (model_dump (exporter_system self) ACBranch)
                (branch_stages ext self)) as [data|e]; cbn; split.
    + intros ? [= <-]. eexists. split_and!; [done..|]. apply csv_rows_of.
    + intros H. by destruct (H data).
    + by intros.
    + done.
  - (* dc branch *)
    unfold process_dc_branch_data, export_component_to_csv. cbn. split.
    + intros ? ->. eexists. split_and!; [done..|]. apply csv_rows_of.
    + intros H. by destruct (H (to_records (exporter_system self) DCBranch)).
  - (* generators *)
    unfold process_gen_data, write_generators, lift, mbind, M_bind.
    destruct (get_export_records (model_dump (exporter_system self) Generator)
                (gen_stages ext self)) as [export_records|e] eqn:Hexp;
      cbn [fst snd].
    2:{ split; [|done]. intros ? (_ & ? & ? & _). congruence. }
    destruct (sorted_by_name_reverse export_records) as [sorted_records|e]
      eqn:Hsort; cbn [fst snd].
    2:{ split; [|done]. intros ? (_ & ? & [= <-] & ?). congruence. }
    destruct (output_fields self !! "generator") as [gen_fields|] eqn:Hgen;
      cbn [fst snd].
    2:{ split; [|done]. by intros ? ([? ?] & _). }
    split.
    + intros ? (_ & ? & [= <-] & Hdata).
      assert (data = sorted_records) as -> by congruence.
      eexists. split_and!; [done..|]. apply csv_rows_of.
    + intros H. destruct (H sorted_records). eauto.
  - (* reserves *)
    unfold process_reserves_data, lift, mbind, M_bind.
    destruct (mapM (λ component, record_getitem component "mapping")
                (to_records (exporter_system self) ReserveMap))
      as [maps|e] eqn:Hmaps; cbn [fst snd].
    2:{ split; [|done]. by intros ? (? & ? & ? & _). }
    destruct maps as [|reserve_map [|? ?]]; cbn [fst snd].
    { split; [|done]. by intros ? (? & ? & ? & _). }
    2:{ split; [|done]. by intros ? (? & ? & ? & _). }
    destruct (reserves_loop ext reserve_map
                (to_records (exporter_system self) Reserve) [])
      as [output_data|e] eqn:Hloop; cbn [fst snd].
    2:{ split; [|done]. intros ? (? & ? & [= <-] & ? & _). congruence. }
    destruct (get_export_records output_data (reserve_stages ext self))
      as [data|e] eqn:Hexp; cbn [fst snd].
    2:{ split; [|done]. intros ? (? & ? & [= <-] & ? & ?). congruence. }
    split.
    + intros data' (? & ? & [= <-] & ? & Hdata).
      assert (data' = data) as -> by congruence.
      eexists. split_and!; [done..|]. apply csv_rows_of.
    + intros H. destruct (H data). eauto.
  - (* storage *)
    unfold process_storage_data. fold (storage_stages ext self).
    unfold lift, mbind, M_bind.
    destruct (get_export_records (to_records_storage (exporter_system self))
                (storage_stages ext self)) as [storage_list|e] eqn:Hexp;
      cbn [fst snd].
    2:{ split; [|done]. by intros ? (? & ? & _). }
    destruct storage_list as [|storage storage_list]; cbn [fst snd].
    { split; [|done]. by intros ? (? & [= <-] & ? & _). }
    pose proof (keeps_files_storage_output_data (exporter_system self)
                  (storage :: storage_list) w) as Hfiles.
    destruct (storage_output_data (exporter_system self)
                (storage :: storage_list) w) as [w1 [data|e]] eqn:Hout;
      cbn [fst snd] in *.
    2:{ split; [|done]. intros ? (? & [= <-] & _ & H).
        rewrite Hout in H. discriminate H. }
    split.
    + intros data' (? & [= <-] & _ & Hdata).
      rewrite Hout in Hdata. injection Hdata as <-.
      eexists. split_and!; [done| |apply csv_rows_of]. cbn. by rewrite Hfiles.
    + intros H. destruct (H data). exists (storage :: storage_list).
      split_and!; [done..|]. by rewrite Hout.
Qed.
End Tables.

(** ** Time-series pointers *)

Lemma mapM_result_app {A B} (f : A → result B) (l1 l2 : list A) :
  mapM f (l1 ++ l2)
  = (k1 ← mapM f l1; k2 ← mapM f l2; Ok (k1 ++ k2)%list).
Proof.
  induction l1 as [|x l1 IH]; simpl.
  - by destruct (mapM f l2).
  - destruct (f x) as [y|e]; [|done]. rewrite ?result_bind_ok, IH.
    destruct (mapM f l1) as [k1|e]; [|done]. rewrite ?result_bind_ok.
    by destruct (mapM f l2).
Qed.

Lemma mapM_result_fmap {A B C} (f : B → result C) (g : A → B) (l : list A) :
  mapM f (g <$> l) = mapM (λ x, f (g x)) l.
Proof.
  induction l as [|x l IH]; [done|].
  rewrite fmap_cons. cbn [mapM]. by rewrite IH.
Qed.

Lemma metadata_loop_mapM (pointer : ts_metadata → result (gmap string value))
    (metadata : list ts_metadata) :
  ∀ acc, metadata_loop pointer metadata acc
         = (ps ← mapM pointer metadata; Ok (acc ++ ps)%list).
Proof.
  induction metadata as [|ts metadata IH]; intros acc; simpl.
  - by rewrite ?result_bind_ok, app_nil_r.
  - destruct (pointer ts) as [p|e]; [|done]. rewrite ?result_bind_ok, IH.
    destruct (mapM pointer metadata) as [ps|e]; [|done].
    rewrite ?result_bind_ok. by rewrite <- (assoc_L (++)).
Qed.

Lemma components_loop_mapM (system : System)
    (pointer : component → ts_metadata → result (gmap string value))
    (components : list component) :
  ∀ acc, components_loop system pointer components acc
         = (ps ← mapM (λ p, pointer p.1 p.2)
                   (c ← components;
                    (λ ts, (c, ts)) <$> list_time_series_metadata system c);
            Ok (acc ++ ps)%list).
Proof.
  induction components as [|c components IH]; intros acc.
  - simpl. by rewrite ?result_bind_ok, app_nil_r.
  - cbn [components_loop]. rewrite bind_cons, mapM_result_app.
    rewrite metadata_loop_mapM.
    rewrite mapM_result_fmap. cbn [fst snd].
    destruct (mapM (pointer c) _) as [ps|e]; [|done].
    rewrite ?result_bind_ok, IH.
    destruct (mapM _ _) as [ps'|e]; [|done].
    rewrite ?result_bind_ok. by rewrite <- (assoc_L (++)).
Qed.

(** The pointers are the records of the pairs, one per pair and in order;
    the list fails as a whole when the metadata of a pair has no
    resolution. *)
Lemma ts_pointers_list_pairs config system output_folder time_series_folder
    reference_year :
  ts_pointers_list config system output_folder time_series_folder reference_year
  = mapM (λ p, ts_pointers config output_folder time_series_folder
                 reference_year p.1 p.2) (ts_pairs system).
Proof.
  unfold ts_pointers_list, ts_pairs. rewrite components_loop_mapM.
  by destruct (mapM _ _).
Qed.

(** The fields of a pointer record. *)
Lemma ts_pointers_fields config output_folder time_series_folder
    reference_year (c : component) (ts : ts_metadata) (d : timedelta) :
  resolution ts = Some d →
  ∃ p : gmap string value,
    ts_pointers config output_folder time_series_folder reference_year c ts
    = Ok p
    ∧ p !! "category" = Some (VStr (class_name c))
    ∧ p !! "component_name" = Some (VStr (component_name c))
    ∧ p !! "data_file"
      = Some (VStr (path_join (path_join output_folder time_series_folder)
                      ((class_name c +:+ "_" +:+ variable_name ts) +:+ "_"
                       +:+ scenario_name config +:+ "_"
                       +:+ format_year reference_year +:+ ".csv")))
    ∧ p !! "resolution" = Some (VInt (seconds d))
    ∧ p !! "name" = Some (VStr (variable_name ts))
    ∧ p !! "scaling_factor_multiplier_module" = Some (VStr "PowerSystems")
    ∧ p !! "scaling_factor_multiplier" = Some (VStr "get_max_active_power").
Proof.
  intros Hd. unfold ts_pointers. rewrite Hd, result_bind_ok.
  eexists. split; [done|].
  split_and!;
    repeat (rewrite lookup_insert_ne by discriminate);
    first [apply lookup_insert_eq | apply lookup_singleton_eq].
Qed.

(** C9. One pointer record is emitted for the one pair of the component
    and its metadata entry, with the category, the component name, the file
    path, the series name and the two annotation fields; but for this time
    series of resolution one day the field [resolution] is 0, not the 86400
    seconds of the resolution: line 568 reads [resolution.seconds], the
    seconds part of the [timedelta], where the resolution in seconds is
    [resolution.total_seconds()]. *)
Theorem daily_resolution_pointer :
  ∃ p : gmap string value,
    ts_pointers_list example_scenario daily_system "out" "Data" (Some 2030)
    = Ok [p]
    ∧ p !! "category" = Some (VStr "HydroDispatch")
    ∧ p !! "component_name" = Some (VStr "hydro1")
    ∧ p !! "data_file"
      = Some (VStr "out/Data/HydroDispatch_hydro_budget_test_2030.csv")
    ∧ p !! "name" = Some (VStr "hydro_budget")
    ∧ p !! "resolution" = Some (VInt 0)
    ∧ total_seconds daily = 86400.
Proof.
  eexists. split; [vm_compute; reflexivity|].
  vm_compute. repeat split.
Qed.

(** ** The examples, run *)

Lemma storage_limit_min_zero_witness :
  ∃ rows : list (gmap string value),
    (storage_output_data example_system [example_storage] empty_world).2
    = Ok rows
    ∧ length rows = 2%nat
    ∧ Forall (λ row : gmap string value,
                row !! "input_active_power_limit_min" = Some (VInt 0)
                ∧ row !! "output_active_power_limit_min" = Some (VInt 0)) rows.
Proof.
  apply (storage_limit_min_zero example_system [example_storage] empty_world).
  constructor; [|constructor].
  constructor.
  - exists "X". reflexivity.
  - exists (VFloat 10). reflexivity.
  - exists (VFloat 5). reflexivity.
  - exists (VFloat 10). reflexivity.
  - exists (VStr "bus1"). split; [reflexivity|].
    intros _. exists example_bus. reflexivity.
Defined.

Lemma reserves_from_single_map_witness :
  let self := example_exporter reserve_system in
  let run := process_reserves_data example_ext self "reserves.csv" empty_world in
  (files run.1 = ∅ ∧ ∃ e, run.2 = Raise e)
  ∨ ∃ rows : list (list value),
      run.2 = Ok ()
      ∧ files run.1
        = <["out/reserves.csv" := CsvFile reserves_output_fields rows]> ∅
      ∧ Forall2 (reserve_row example_ext self reserve_mapping)
          (filter (λ r, reserve_in_map reserve_mapping r = true) [spin; flex])
          rows.
Proof.
  exact (proj2 (proj2 (reserves_from_single_map example_ext
                         (example_exporter reserve_system) "reserves.csv"
                         empty_world [VDict reserve_mapping] eq_refl))
           reserve_mapping eq_refl).
Defined.

(** The reserve that is not in the map gives no row. *)
Example reserves_example :
  let self := example_exporter reserve_system in
  let run := process_reserves_data example_ext self "reserves.csv" empty_world in
  run.2 = Ok ()
  ∧ files run.1 !! "out/reserves.csv"
    = Some (CsvFile reserves_output_fields
              [[VStr "spin"; VStr "NA"; VStr "NA"; VStr "NA"; VStr "UP";
                VStr "(gen1, gen2)"; VStr "(Generator,Storage)"; VStr "NA"]]).
Proof. vm_compute. split; reflexivity. Qed.

Lemma branch_is_transformer_and_tap_witness :
  ∃ row : gmap string value,
    get_export_properties (branch_stages example_ext (example_exporter empty_system))
      example_transformer = Ok row
    ∧ row !! "is_transformer" = Some (VBool true)
    ∧ row !! "tap" = Some (VFloat 1).
Proof.
  destruct (branch_is_transformer_and_tap example_ext
              (example_exporter empty_system) example_transformer
              example_transformer (VStr "Transformer2W") eq_refl eq_refl)
    as (row & Hrow & Htrue & _ & Habsent & _).
  exists row. split_and!.
  - exact Hrow.
  - apply Htrue. reflexivity.
  - apply Habsent. left. reflexivity.
Defined.

(** A line is not a transformer and keeps its tap. *)
Example branch_line_example :
  ∃ row : gmap string value,
    get_export_properties (branch_stages example_ext (example_exporter empty_system))
      example_line = Ok row
    ∧ row !! "is_transformer" = Some (VBool false)
    ∧ row !! "tap" = Some (VFloat 2).
Proof. eexists. split; [vm_compute; reflexivity|]. vm_compute. by split. Qed.

Lemma generators_sorted_descending_witness :
  ∃ sorted_records : list (gmap string value),
    sorted_by_name_reverse example_generators = Ok sorted_records
    ∧ sorted_records ≡ₚ example_generators
    ∧ StronglySorted
        (λ a b, String.leb (name_of b) (name_of a) = true) sorted_records.
Proof.
  destruct (generators_sorted_descending example_ext
              (example_exporter empty_system) "gen.csv" example_generators
              ["alpha"; "charlie"; "bravo"] empty_world)
    as (sorted_records & Hsort & Hperm & Hsorted & _).
  - repeat constructor.
  - exists sorted_records. split_and!; assumption.
Defined.

(** The three generators are written in the order charlie, bravo, alpha. *)
Example generators_example :
  (write_generators example_ext (example_exporter empty_system) "gen.csv"
     example_generators empty_world).1.(files) !! "out/gen.csv"
  = Some (CsvFile ["name"; "fuel_price"; "unit_type"]
            [[VStr "charlie"; VFloat 50; VStr "NA"];
             [VStr "bravo"; VStr "NA"; VStr "NA"];
             [VStr "alpha"; VStr "NA"; VStr "NA"]]).
Proof. vm_compute. reflexivity. Qed.

(** A load without power data is written with ["0.0"] in the fields it
    lacks. *)
Example load_example :
  (process_load_data example_ext (example_exporter load_system) "load.csv"
     empty_world).1.(files) !! "out/load.csv"
  = Some (CsvFile load_output_fields
            [[VInt 3; VStr "load1"; VStr "0.0"; VStr "0.0"; VStr "0.0";
              VStr "0.0"; VStr "0.0"]]).
Proof. vm_compute. reflexivity. Qed.

(** The constructor returns an exporter for a well-formed scenario. *)
Example init_example :
  ∃ self,
    __init__ example_ext
      {| scenario_name := "test"; scenario_output_folder := Some "out";
         input_config := Some sienna_output;
         output_config := Some sienna_output |}
      empty_system "out" empty_world
    = (empty_world, Ok self).
Proof. eexists. vm_compute. reflexivity. Qed.

Lemma every_row_has_every_field_witness :
  let run := process_load_data example_ext (example_exporter load_system)
               "load.csv" empty_world in
  ∃ rows : list (list value),
    run.2 = Ok ()
    ∧ files run.1 = <["out/load.csv" := CsvFile load_output_fields rows]> ∅
    ∧ Forall2 (λ r row, row_of load_output_fields "0.0" r row)
        [ ({[ "name" := VStr "load1"; "bus_id" := VInt 3 ]} : gmap string value) ]
        rows.
Proof.
  exact (proj1 (every_row_has_every_field example_ext LoadTable
                  (example_exporter load_system) "load.csv" empty_world)
           _ eq_refl).
Defined.
